(** * kswatch: the reward extractor and the availability watch loop

    A shallow embedding of [kswatch.py] (a Python 3 script: it imports
    [html], [html.parser] and [configparser], which exist under these
    names in Python 3 only).

    - Python [str] values are Rocq strings; a character stands for a code
      point below 256, which is enough to exercise the ASCII filter
      [encode('ascii', 'ignore')].
    - The three callbacks of [KickstarterHTMLParser] are functions on the
      record of the object's attributes, in an error monad for the
      exceptions Python raises.  [HTMLParser.feed] belongs to Python's
      library: it is represented by the sequence of callbacks it makes,
      and, where a property depends on what the parser object keeps from
      one call of [feed] to the next, by a state machine ([Tokenizer]).
    - The module-level script is written in a monad that threads the
      history of observable effects (console lines, HTTP requests, sleeps)
      and ends in a value, an exception or [sys.exit]. *)

From Stdlib Require Import String Ascii List ZArith Bool Lia DecimalString.
From stdpp Require Import base strings gmap list.

Local Open Scope string_scope.
Local Open Scope list_scope.
Local Open Scope Z_scope.

(** ** Exceptions and the error monad of the parser callbacks *)

Inductive exn : Type :=
| KeyError (key : string)
| TypeError
| AttributeError (attr : string)
| NameError (name : string)
| ValueError
| IndexError
| RequestError      (* whatever [requests] raises: connection, timeout ... *)
| AssertionError.   (* [HTMLParser] on a marked section it does not know *)

Inductive result (A : Type) : Type :=
| Ok (a : A)
| Raise (e : exn).
Arguments Ok {A} a.
Arguments Raise {A} e.

#[global] Instance result_ret : MRet result := fun A a => Ok a.
#[global] Instance result_bind : MBind result := fun A B f r =>
  match r with
  | Ok a => f a
  | Raise e => Raise e
  end.

(** ** Python string operations used by the script *)

Module Py.

(** [needle in hay] on two strings: substring test. *)
Fixpoint contains (needle hay : string) : bool :=
  String.prefix needle hay ||
  match hay with
  | EmptyString => false
  | String _ rest => contains needle rest
  end.

(** [needle in hay] where [hay] may be [None]:
    "argument of type 'NoneType' is not iterable". *)
Definition str_in (needle : string) (hay : option string) : result bool :=
  match hay with
  | Some h => Ok (contains needle h)
  | None => Raise TypeError
  end.

(** [str.isspace] for one character (code points below 256). *)
Definition isspace (c : ascii) : bool :=
  let n := Z.of_nat (nat_of_ascii c) in
  ((9 <=? n) && (n <=? 13)) || ((28 <=? n) && (n <=? 32))
  || (n =? 133) || (n =? 160).

(** [s.encode('ascii', 'ignore').decode()]: drop every non-ASCII
    character. *)
Fixpoint ascii_ignore (s : string) : string :=
  match s with
  | EmptyString => EmptyString
  | String c rest =>
      if Z.of_nat (nat_of_ascii c) <? 128
      then String c (ascii_ignore rest)
      else ascii_ignore rest
  end.

(** [s.split()]: the maximal runs of non-whitespace characters.  [word]
    is the run being read. *)
Fixpoint split_from (word : string) (s : string) : list string :=
  match s with
  | EmptyString => if String.eqb word "" then [] else [word]
  | String c rest =>
      if isspace c
      then (if String.eqb word "" then [] else [word]) ++ split_from "" rest
      else split_from (word +:+ String c EmptyString) rest
  end.

Definition split (s : string) : list string := split_from "" s.

(** [sep.join(words)]. *)
Fixpoint join (sep : string) (words : list string) : string :=
  match words with
  | [] => ""
  | [w] => w
  | w :: ws => w +:+ sep +:+ join sep ws
  end.

Fixpoint lstrip (s : string) : string :=
  match s with
  | EmptyString => EmptyString
  | String c rest => if isspace c then lstrip rest else s
  end.

Definition rstrip (s : string) : string :=
  String.rev (lstrip (String.rev s)).

(** [s.strip()]. *)
Definition strip (s : string) : string := rstrip (lstrip s).

(** [s[:n]]. *)
Definition take (n : nat) (s : string) : string := String.substring 0 n s.

(** [s.split(sep, 1)[0]] for a one-character separator: the text before
    its first occurrence, or all of [s]. *)
Fixpoint before (sep : ascii) (s : string) : string :=
  match s with
  | EmptyString => EmptyString
  | String c rest =>
      if Ascii.eqb c sep then EmptyString else String c (before sep rest)
  end.

(** [str(n)] / ['{}'.format(n)] for an integer. *)
Definition str_of_int (n : Z) : string := NilZero.string_of_int (Z.to_int n).

(** [html.unescape]: a string without an ampersand is returned as it is;
    otherwise the character references are substituted, by the library's
    table of HTML5 entities, which is a parameter here. *)
Definition unescape (charref_sub : string -> string) (s : string) : string :=
  if contains "&" s then charref_sub s else s.

(** [dict(pairs)]: a later pair overrides an earlier one with its key. *)
Definition dict {V : Type} (pairs : list (string * V)) : gmap string V :=
  foldl (fun m kv => <[kv.1 := kv.2]> m) ∅ pairs.

(** [d[key]]. *)
Definition getitem {V : Type} (d : gmap string V) (key : string) : result V :=
  match d !! key with
  | Some v => Ok v
  | None => Raise (KeyError key)
  end.

End Py.

(** ** The reward extractor: [KickstarterHTMLParser] *)

(** A reward is the tuple [(value, ident, description)].  The identifier is
    the raw [id] attribute, which is [None] for an attribute written
    without a value. *)
Definition reward : Type := string * option string * string.

Definition item0 (r : reward) : string := r.1.1.
Definition item1 (r : reward) : option string := r.1.2.
Definition item2 (r : reward) : string := r.2.

(** What [HTMLParser.feed] hands to the callbacks.  An attribute value is
    [None] when the attribute has no value ([<li class>]).  A tag closed in
    place ([<input ... />]) is a [StartTag] followed by an [EndTag]. *)
Inductive event : Type :=
| StartTag (tag : string) (attributes : list (string * option string))
| EndTag (tag : string)
| Data (data : string).

(** The attributes of the parser object.  [name] is always bound, to a
    string or to [None]; the other four are [None] here while the object
    has no such attribute yet (reading one then raises [AttributeError]).
    A bound [ident] holds a string or Python's [None]. *)
Record KickstarterHTMLParser : Type := mkParser {
  in_li_block : bool;
  in_desc_block : bool;
  name : option string;
  rewards : option (list reward);
  value : option string;
  ident : option (option string);
  description : option string
}.

(** [__init__] *)
Definition init : KickstarterHTMLParser :=
  {| in_li_block := false; in_desc_block := false; name := Some "";
     rewards := None; value := None; ident := None; description := None |}.

Definition set_in_li_block (b : bool) (self : KickstarterHTMLParser) :=
  mkParser b (in_desc_block self) (name self) (rewards self) (value self)
    (ident self) (description self).
Definition set_in_desc_block (b : bool) (self : KickstarterHTMLParser) :=
  mkParser (in_li_block self) b (name self) (rewards self) (value self)
    (ident self) (description self).
Definition set_name (n : option string) (self : KickstarterHTMLParser) :=
  mkParser (in_li_block self) (in_desc_block self) n (rewards self)
    (value self) (ident self) (description self).
Definition set_rewards (r : list reward) (self : KickstarterHTMLParser) :=
  mkParser (in_li_block self) (in_desc_block self) (name self) (Some r)
    (value self) (ident self) (description self).
Definition set_value (v : string) (self : KickstarterHTMLParser) :=
  mkParser (in_li_block self) (in_desc_block self) (name self) (rewards self)
    (Some v) (ident self) (description self).
Definition set_ident (i : option string) (self : KickstarterHTMLParser) :=
  mkParser (in_li_block self) (in_desc_block self) (name self) (rewards self)
    (value self) (Some i) (description self).
Definition set_description (d : string) (self : KickstarterHTMLParser) :=
  mkParser (in_li_block self) (in_desc_block self) (name self) (rewards self)
    (value self) (ident self) (Some d).

(** [self.attr] for an attribute that may not exist yet. *)
Definition getattr {A : Type} (attr : string) (v : option A) : result A :=
  match v with
  | Some a => Ok a
  | None => Raise (AttributeError attr)
  end.

Section Extractor.

(** The substitution of character references inside [html.unescape]. *)
Variable charref_sub : string -> string.

Definition handle_starttag (self : KickstarterHTMLParser) (tag : string)
    (attributes : list (string * option string)) : result KickstarterHTMLParser :=
  let attrs := Py.dict attributes in
  match attrs !! "class" with
  | None => Ok self
  | Some class =>
      (* the description is in a block of class 'pledge__title' *)
      self1 ← (if in_li_block self
               then b ← Py.str_in "pledge__title" class;
                    Ok (if b : bool then set_in_desc_block true self else self)
               else Ok self);
      (* the pledge amount and the reward ID *)
      self2 ← (if in_li_block self1 && String.eqb tag "input"
               then b ← Py.str_in "pledge__radio" class;
                    if b : bool
                    then title ← Py.getitem attrs "title";
                         title ← getattr "encode" title;
                         id ← Py.getitem attrs "id";
                         Ok (set_ident id (set_value (Py.ascii_ignore title) self1))
                    else Ok self1
               else Ok self1);
      (* only the reward levels that are all gone *)
      if String.eqb tag "li"
      then b ← Py.str_in "pledge--all-gone" class;
           Ok (if b : bool
               then set_description "" (set_in_li_block true self2)
               else self2)
      else Ok self2
  end.

Definition handle_endtag (self : KickstarterHTMLParser) (tag : string)
    : result KickstarterHTMLParser :=
  self1 ← (if String.eqb tag "li"
           then if in_li_block self
                then rs ← getattr "rewards" (rewards self);
                     v ← getattr "value" (value self);
                     i ← getattr "ident" (ident self);
                     d ← getattr "description" (description self);
                     Ok (set_in_li_block false
                           (set_rewards (rs ++ [(v, i, Py.join " " (Py.split d))]) self))
                else Ok self
           else Ok self);
  Ok (if String.eqb tag "h3" then set_in_desc_block false self1 else self1).

Definition handle_data (self : KickstarterHTMLParser) (data : string)
    : result KickstarterHTMLParser :=
  if in_desc_block self
  then d ← getattr "description" (description self);
       Ok (set_description
             (d +:+ Py.ascii_ignore (Py.unescape charref_sub data)) self)
  else Ok self.

Definition handle (self : KickstarterHTMLParser) (e : event)
    : result KickstarterHTMLParser :=
  match e with
  | StartTag tag attributes => handle_starttag self tag attributes
  | EndTag tag => handle_endtag self tag
  | Data data => handle_data self data
  end.

(** [self.feed(text)], as the callbacks it makes in order; the first
    exception ends it. *)
Fixpoint feed (self : KickstarterHTMLParser) (events : list event)
    : result KickstarterHTMLParser :=
  match events with
  | [] => Ok self
  | e :: rest => self' ← handle self e; feed self' rest
  end.

(** The parsing part of [process]: [self.name] and [self.rewards] are
    rebound, the page is fed, [self.rewards] is returned.  Nothing else
    of the object is reset. *)
Definition parse (self : KickstarterHTMLParser) (title : option string)
    (events : list event) : result (KickstarterHTMLParser * list reward) :=
  self' ← feed (set_rewards [] (set_name title self)) events;
  rs ← getattr "rewards" (rewards self');
  Ok (self', rs).

End Extractor.

(** ** The script: effects, outcomes and the monad it runs in *)

(** What the script does to the outside, in order. *)
Inductive effect : Type :=
| Print (line : string)             (* print(line) *)
| Input (prompt : string)           (* raw_input(prompt) *)
| Get (url : string)                (* requests.get(url) *)
| Post (message url : string)       (* requests.post to the push service *)
| Sleep (seconds : Z).              (* time.sleep(seconds) *)

Definition history : Type := list effect.

(** How a run of a piece of the script ends: with a value, with an
    exception nobody caught so far, with [sys.exit(code)], or still inside
    the selection prompt when the rounds granted to it are used up. *)
Inductive outcome (A : Type) : Type :=
| Return (a : A)
| Throw (e : exn)
| SysExit (code : Z)
| Pending.
Arguments Return {A} a.
Arguments Throw {A} e.
Arguments SysExit {A} code.
Arguments Pending {A}.

Definition M (A : Type) : Type := history -> outcome A * history.

#[global] Instance M_ret : MRet M := fun A a h => (Return a, h).
#[global] Instance M_bind : MBind M := fun A B f m h =>
  match m h with
  | (Return a, h') => f a h'
  | (Throw e, h') => (Throw e, h')
  | (SysExit c, h') => (SysExit c, h')
  | (Pending, h') => (Pending, h')
  end.

Definition throw {A : Type} (e : exn) : M A := fun h => (Throw e, h).
Definition sys_exit {A : Type} (code : Z) : M A := fun h => (SysExit code, h).
Definition pending {A : Type} : M A := fun h => (Pending, h).
Definition emit (e : effect) : M unit := fun h => (Return tt, h ++ [e]).
Definition print (line : string) : M unit := emit (Print line).

Definition lift {A : Type} (r : result A) : M A :=
  match r with
  | Ok a => mret a
  | Raise e => throw e
  end.

(** [try: body except (IndexError, NameError, SyntaxError): handler] *)
Definition try_except {A : Type} (body : M A) (caught : exn -> bool)
    (handler : M A) : M A := fun h =>
  match body h with
  | (Throw e, h') => if caught e then handler h' else (Throw e, h')
  | other => other
  end.

(** [time.sleep]: a negative length is a [ValueError]. *)
Definition sleep (seconds : Z) : M unit :=
  if seconds <? 0 then throw ValueError else emit (Sleep seconds).

(** *** Names *)

(** The names bound in the module's namespace when the script runs: its
    imports, its definitions and its top-level assignments (the loop
    variable [s] of the top-level [for] included). *)
Definition module_globals : list string :=
  [ "os"; "sys"; "time"; "unescape"; "HTMLParser"; "fromstring";
    "OptionParser"; "configparser"; "requests";
    "USER_KEY"; "APP_TOKEN"; "PRIORITY";
    "KickstarterHTMLParser"; "push_message"; "pledge_menu";
    "parser"; "options"; "args"; "config"; "url"; "pledges"; "ids";
    "selected"; "rewards"; "ks"; "s" ].

(** The functions of Python 3's [builtins] module, and the exceptions the
    script names. *)
Definition builtins : list string :=
  [ "abs"; "aiter"; "all"; "anext"; "any"; "ascii"; "bin"; "bool";
    "breakpoint"; "bytearray"; "bytes"; "callable"; "chr"; "classmethod";
    "compile"; "complex"; "delattr"; "dict"; "dir"; "divmod"; "enumerate";
    "eval"; "exec"; "filter"; "float"; "format"; "frozenset"; "getattr";
    "globals"; "hasattr"; "hash"; "help"; "hex"; "id"; "input"; "int";
    "isinstance"; "issubclass"; "iter"; "len"; "list"; "locals"; "map";
    "max"; "memoryview"; "min"; "next"; "object"; "oct"; "open"; "ord";
    "pow"; "print"; "property"; "range"; "repr"; "reversed"; "round";
    "set"; "setattr"; "slice"; "sorted"; "staticmethod"; "str"; "sum";
    "super"; "tuple"; "type"; "vars"; "zip"; "__import__";
    "IndexError"; "NameError"; "SyntaxError" ].

(** Looking up a name that is not local: the module's namespace, then the
    builtins, else [NameError]. *)
Definition lookup_global (locals : list string) (name : string) : M unit :=
  if bool_decide (name ∈ locals ++ module_globals ++ builtins)
  then mret tt
  else throw (NameError name).

(** *** The outside world *)

(** What [requests.get] followed by the two parsers of the page gives:
    an exception, or the text of the page's [<title>] (as
    [lxml]'s [findtext], [None] when there is none) and the callbacks
    [HTMLParser.feed] makes on the page's text.

    [Page] stands for a call in which the request, [lxml] and
    [HTMLParser]'s own code all return normally; [Fails] for one in which
    one of them raises.  The callbacks are those of this call of [feed] on
    this parser object: [feed] parses what the object kept unparsed from
    the texts fed before followed by the new text, so the same text may
    give other callbacks in a later call.  A world hands them over as a
    function of the history; [site_world] below derives them from the
    texts served. *)
Inductive response : Type :=
| Fails (e : exn)
| Page (title : option string) (events : list event).

(** The collaborators the script calls, each a function of what has
    happened so far.  [pyfloat] is Python's [float]; [float] and [int] are
    the conversions from a string, [None] for a [ValueError]. *)
Record World : Type := mkWorld {
  charref_sub : string -> string;
  pyfloat : Type;
  float : string -> option pyfloat;
  float_eqb : pyfloat -> pyfloat -> bool;
  int : string -> option Z;
  http_get : history -> string -> response;
  http_post : history -> option exn;
  strftime : history -> string;
  stdin : history -> string
}.

(** [time.sleep(60 * options.delay)] and the [-v] flag. *)
Record options : Type := mkOptions {
  delay : Z;
  verbose : bool
}.

Definition nl : string := String (ascii_of_nat 10) "".

Section Script.

Context (W : World).

(** Python values that meet in a comparison of the script. *)
Inductive pyval : Type :=
| PStr (s : string)
| PFloat (f : pyfloat W).

(** [x == y]: two strings by content, two floats by value; a string and
    a float are never equal. *)
Definition py_eq (x y : pyval) : bool :=
  match x, y with
  | PStr a, PStr b => String.eqb a b
  | PFloat a, PFloat b => float_eqb W a b
  | _, _ => false
  end.

(** [l[i]] with Python's negative indices. *)
Definition py_index {A : Type} (l : list A) (i : Z) : result A :=
  let n := Z.of_nat (length l) in
  let j := if i <? 0 then i + n else i in
  if (0 <=? j) && (j <? n)
  then match l !! Z.to_nat j with
       | Some a => Ok a
       | None => Raise IndexError
       end
  else Raise IndexError.

Definition requests_get (url : string) : M (option string * list event) :=
  fun h =>
    match http_get W h url with
    | Fails e => (Throw e, h ++ [Get url])
    | Page title events => (Return (title, events), h ++ [Get url])
    end.

(** [push_message(message, url)] *)
Definition push_message (message url : string) : M unit := fun h =>
  match http_post W h with
  | Some e => (Throw e, h ++ [Post message url])
  | None => (Return tt, h ++ [Post message url])
  end.

Definition time_strftime : M string := fun h => (Return (strftime W h), h).

Definition raw_input (prompt : string) : M string := fun h =>
  (Return (stdin W h), h ++ [Input prompt]).

(** [ks.process(url)]: the parser object after the call, and the list it
    returns.  The attributes of the object that [HTMLParser] keeps for
    itself are not part of [KickstarterHTMLParser]: what they do to the
    callbacks of this call is in the response (see [response]). *)
Definition process (self : KickstarterHTMLParser) (url : string)
    : M (KickstarterHTMLParser * list reward) :=
  '(title, events) ← requests_get url;
  lift (parse (charref_sub W) self title events).

(** *** Selection by amount *)

(** [x in pledges] where [pledges] is what is left of the iterator
    [map(float, args[1:])]: the arguments are converted one by one until
    one equals [x]; the iterator keeps what was not read. *)
Fixpoint in_pledges (x : pyval) (pledges : list string)
    : result (bool * list string) :=
  match pledges with
  | [] => Ok (false, [])
  | a :: rest =>
      match float W a with
      | None => Raise ValueError
      | Some f => if py_eq x (PFloat f) then Ok (true, rest)
                  else in_pledges x rest
      end
  end.

(** [[r for r in rewards if r[0] in pledges]] *)
Fixpoint select_pledges (rewards : list reward) (pledges : list string)
    : result (list reward) :=
  match rewards with
  | [] => Ok []
  | r :: rs =>
      '(found, pledges') ← in_pledges (PStr (item0 r)) pledges;
      sel ← select_pledges rs pledges';
      Ok (if found : bool then r :: sel else sel)
  end.

(** *** [pledge_menu] *)

(** The names local to [pledge_menu]. *)
Definition menu_locals : list string :=
  [ "rewards"; "re"; "count"; "i"; "ans"; "numbers" ].

(** [for i in xrange(count): print('{0}. {1} {2}'.format(...))], from
    index [i] on. *)
Fixpoint print_menu (i : Z) (rewards : list reward) : M unit :=
  match rewards with
  | [] => mret tt
  | r :: rs =>
      print (Py.str_of_int (i + 1) +:+ ". " +:+ item0 r +:+ " "
               +:+ Py.take 70 (item2 r));;
      print_menu (i + 1) rs
  end.

(** [[rewards[i - 1] for i in numbers]] with [numbers = map(int, ...)]. *)
Fixpoint pick (rewards : list reward) (tokens : list string)
    : result (list reward) :=
  match tokens with
  | [] => Ok []
  | t :: ts =>
      i ← (match int W t with Some i => Ok i | None => Raise ValueError end);
      r ← py_index rewards (i - 1);
      rs ← pick rewards ts;
      Ok (r :: rs)
  end.

Definition menu_caught (e : exn) : bool :=
  match e with
  | IndexError | NameError _ => true
  | _ => false
  end.

(** The [while True] of the prompt, for at most [rounds] rounds. *)
Fixpoint prompt (rounds : nat) (rewards : list reward) : M (list reward) :=
  match rounds with
  | O => pending
  | S n =>
      try_except
        (lookup_global menu_locals "raw_input";;
         ans ← raw_input (nl +:+ "Select pledge levels: ");
         lookup_global menu_locals "map";;
         lift (pick rewards (Py.split ans)))
        menu_caught
        (prompt n rewards)
  end.

Definition pledge_menu (rounds : nat) (rewards : list reward)
    : M (list reward) :=
  match rewards with
  | [r] =>
      print "Automatically selecting the only limited award available:";;
      print (item0 r +:+ " " +:+ Py.take 74 (item2 r));;
      mret rewards
  | _ =>
      lookup_global menu_locals "xrange";;
      print_menu 0 rewards;;
      prompt rounds rewards
  end.

(** *** The start of the script *)

(** [for s in selected: print("{0}".format(s[2]))] *)
Fixpoint print_selected (selected : list reward) : M unit :=
  match selected with
  | [] => mret tt
  | s :: rest => print (item2 s);; print_selected rest
  end.

(** What the watch loop works on: the one parser object [ks], and the
    variables [selected] and [rewards]. *)
Record loop_state : Type := mkLoop {
  ks : KickstarterHTMLParser;
  selected : list reward;
  latest : list reward          (* the variable [rewards] *)
}.

(** The URL polled: the first argument up to its [?], and the path of the
    pledge-editing page. *)
Definition pledge_url (arg0 : string) : string :=
  Py.before "?" arg0 +:+ "/pledge/new".

(** The script from the check of the positional arguments to the line
    before [while True].  [argc] is [len(sys.argv)], [args] the
    positional arguments.  It returns the URL polled and the state the
    loop starts in.  (Reading the credentials file is left out: it only
    sets the two keys sent along with each push.) *)
Definition startup (rounds : nat) (argc : nat) (args : list string)
    : M (string * loop_state) :=
  match args with
  | [] => sys_exit 2                       (* parser.error('no URL specified') *)
  | arg0 :: amounts =>
      let url := pledge_url arg0 in
      let pledges := if (2 <? Z.of_nat argc) then Some amounts else None in
      '(ks, rewards) ← process init url;
      (if bool_decide (rewards = [])
       then print "No unavailable limited rewards for this Kickstarter";;
            sys_exit 0
       else mret tt);;
      selected ← (match pledges with
                  | Some pledges => lift (select_pledges rewards pledges)
                  | None => pledge_menu rounds rewards
                  end);
      (if bool_decide (selected = [])
       then print "No reward selected.";; sys_exit 0
       else mret tt);;
      print (nl +:+ "Selected rewards:");;
      print_selected selected;;
      print (nl +:+ "Sending test push to make sure everything is OK");;
      title ← lift (getattr "strip" (name ks));
      push_message ("Start watching: " +:+ Py.strip title) url;;
      print (nl +:+ "Watching...");;
      mret (url, mkLoop ks selected rewards)
  end.

(** *** The watch loop *)

(** [for s in selected: ...] of one round of the loop, over what is left
    of the list being iterated; [selected] is the variable, which the
    body rebinds.  It returns that variable. *)
Fixpoint scan (url : string) (rewards : list reward)
    (rest : list reward) (selected : list reward) : M (list reward) :=
  match rest with
  | [] => mret selected
  | s :: rest' =>
      if negb (bool_decide (item1 s ∈ map item1 rewards))
      then
        now ← time_strftime;
        print (now +:+ " - Reward available!");;
        lookup_global [] "string";;           (* print(string(s[2])): the *)
        print (item2 s);;                     (* callee is looked up first *)
        push_message "Kickstarter Reward available!" url;;
        let selected' := filter (fun x => x ≠ s) selected in
        (if bool_decide (selected' = [])
         then sleep 10;; sys_exit 0
         else mret tt);;
        mret selected'                      (* break *)
      else scan url rewards rest' selected
  end.

(** One round of [while True]. *)
Definition cycle (o : options) (url : string) (st : loop_state)
    : M loop_state :=
  selected' ← scan url (latest st) (selected st) (selected st);
  (if verbose o
   then print ("Waiting " +:+ Py.str_of_int (delay o) +:+ " minutes ...")
   else mret tt);;
  sleep (60 * delay o);;
  '(ks', rewards') ← process (ks st) url;
  mret (mkLoop ks' selected' rewards').

(** [n] rounds of the loop. *)
Fixpoint cycles (n : nat) (o : options) (url : string) (st : loop_state)
    : M loop_state :=
  match n with
  | O => mret st
  | S n' => st' ← cycle o url st; cycles n' o url st'
  end.

(** The whole script, watched for [n] rounds of its loop. *)
Definition script (rounds n : nat) (o : options) (argc : nat)
    (args : list string) : M loop_state :=
  '(url, st) ← startup rounds argc args;
  cycles n o url st.

End Script.

(** ** A concrete world for the examples *)

Module Sample.

(** Decimal literals such as [75] or [75.00], read as a mantissa and a
    number of decimals: the part of [float()] the examples need. *)
Definition digit (c : ascii) : option Z :=
  let n := Z.of_nat (nat_of_ascii c) in
  if (48 <=? n) && (n <=? 57) then Some (n - 48) else None.

Fixpoint read_decimal (s : string) (mant : Z) (scale : option nat)
    (seen : bool) : option (Z * nat) :=
  match s with
  | EmptyString => if seen then Some (mant, default O scale) else None
  | String c rest =>
      match digit c with
      | Some d => read_decimal rest (10 * mant + d) (S <$> scale) true
      | None =>
          if Ascii.eqb c "." then
            match scale with
            | None => read_decimal rest mant (Some O) seen
            | Some _ => None
            end
          else None
      end
  end.

Definition decimal_float (s : string) : option (Z * nat) :=
  read_decimal s 0 None false.

Definition decimal_eqb (a b : Z * nat) : bool :=
  a.1 * 10 ^ Z.of_nat b.2 =? b.1 * 10 ^ Z.of_nat a.2.

Definition decimal_int (s : string) : option Z :=
  match decimal_float s with
  | Some (m, O) => Some m
  | _ => None
  end.

Definition is_get (e : effect) : bool :=
  match e with Get _ => true | _ => false end.

(** A site that answers the [n]-th request with the [n]-th of [pages],
    and fails once they are used up; a push service that accepts every
    message; a clock that stands still; a user who types [typed]. *)
Definition world (pages : list response) (typed : string) : World :=
  {| charref_sub := fun s => s;
     pyfloat := Z * nat;
     float := decimal_float;
     float_eqb := decimal_eqb;
     int := decimal_int;
     http_get := fun h _ =>
       nth (length (filter (fun e => is_get e = true) h)) pages (Fails RequestError);
     http_post := fun _ => None;
     strftime := fun _ => "November 04, 2026 10:00 AM";
     stdin := fun _ => typed |}.

Definition block (price id title : string) : list event :=
  [ StartTag "li" [("class", Some "pledge pledge--all-gone")];
    StartTag "input" [("class", Some "pledge__radio"); ("title", Some price);
                      ("id", Some id)];
    EndTag "input";
    StartTag "h3" [("class", Some "pledge__title")];
    Data title;
    EndTag "h3";
    EndTag "li" ].

Definition A : reward := ("$10.00", Some "reward-A", "Sticker").
Definition B : reward := ("$50.00", Some "reward-B", "Shirt").
Definition C : reward := ("$75.00", Some "reward-C", "Poster").

Definition page_AB : response :=
  Page (Some " Gadget ")
    (block "$10.00" "reward-A" "Sticker" ++ block "$50.00" "reward-B" "Shirt").
Definition page_AC : response :=
  Page (Some " Gadget ")
    (block "$10.00" "reward-A" "Sticker" ++ block "$75.00" "reward-C" "Poster").
Definition page_BC : response :=
  Page (Some " Gadget ")
    (block "$50.00" "reward-B" "Shirt" ++ block "$75.00" "reward-C" "Poster").
Definition page_B : response :=
  Page (Some " Gadget ") (block "$50.00" "reward-B" "Shirt").

End Sample.

(** ** Predicates used in the statements *)

(** [s] is watched and its identifier is not among the latest ones. *)
Definition became_available (latest : list reward) (s : reward) : bool :=
  negb (bool_decide (item1 s ∈ map item1 latest)).

(** The three marker classes. *)
Definition all_gone : string := "pledge--all-gone".
Definition pledge_title : string := "pledge__title".
Definition pledge_radio : string := "pledge__radio".

(** The [class] attribute of a tag: [None] when the tag has none,
    [Some None] when it is written without a value. *)
Definition class_of (attributes : list (string * option string))
    : option (option string) :=
  Py.dict attributes !! "class".

(** Events that leave the flags alone: text, a start tag without a [class]
    attribute, an end tag other than [li] and [h3]. *)
Definition inline (e : event) : bool :=
  match e with
  | Data _ => true
  | StartTag _ attributes =>
      match class_of attributes with
      | None => true
      | Some _ => false
      end
  | EndTag tag => negb (String.eqb tag "li") && negb (String.eqb tag "h3")
  end.

(** The text [handle_data] collects from a run of events. *)
Fixpoint text_of (charref_sub : string -> string) (events : list event) : string :=
  match events with
  | [] => ""
  | Data data :: rest =>
      Py.ascii_ignore (Py.unescape charref_sub data) +:+ text_of charref_sub rest
  | _ :: rest => text_of charref_sub rest
  end.

(** One candidate block: the container, the selector control, the title
    element with its content, with inline material around them. *)
Definition single_block (li_attrs input_attrs h3_attrs : list (string * option string))
    (pre mid body post : list event) : list event :=
  [StartTag "li" li_attrs] ++ pre ++ [StartTag "input" input_attrs] ++ mid
  ++ [StartTag "h3" h3_attrs] ++ body ++ [EndTag "h3"] ++ post ++ [EndTag "li"].

(** The content of a candidate block in which no selector control is
    captured and no attribute lookup fails: no [input] tag of the selector
    class, no [class] attribute without a value, no end of the container. *)
Definition selector_free (e : event) : bool :=
  match e with
  | Data _ => true
  | StartTag tag attributes =>
      match class_of attributes with
      | None => true
      | Some None => false
      | Some (Some c) => negb (String.eqb tag "input" && Py.contains pledge_radio c)
      end
  | EndTag tag => negb (String.eqb tag "li")
  end.

(** No [li] start tag carries the all-gone marker class. *)
Definition no_all_gone (e : event) : bool :=
  match e with
  | StartTag tag attributes =>
      match class_of attributes with
      | Some (Some c) => negb (String.eqb tag "li" && Py.contains all_gone c)
      | _ => true
      end
  | _ => true
  end.

(** No [li] start tag has a [class] attribute without a value. *)
Definition li_class_valued (e : event) : bool :=
  match e with
  | StartTag tag attributes =>
      match class_of attributes with
      | Some None => negb (String.eqb tag "li")
      | _ => true
      end
  | _ => true
  end.

(** [later] is a parser that went through the same flags and collected the
    same rewards as [first], and holds every attribute [first] holds with
    the same content: the price and the identifier if [first] has them, the
    description if [first] is inside a block. *)
Definition agrees (first later : KickstarterHTMLParser) : Prop :=
  in_li_block first = in_li_block later
  /\ in_desc_block first = in_desc_block later
  /\ rewards first = rewards later
  /\ (value first = None \/ value first = value later)
  /\ (ident first = None \/ ident first = ident later)
  /\ ((in_li_block first = false /\ in_desc_block first = false)
      \/ description first = description later).

(** A page whose last candidate block is not closed ([</li>] may be left
    out in HTML). *)
Definition page_unclosed : list event :=
  [ StartTag "ul" [];
    StartTag "li" [("class", Some "pledge pledge--available")];
    Data "Sticker";
    EndTag "li";
    StartTag "li" [("class", Some "pledge pledge--all-gone")];
    StartTag "input" [("class", Some "pledge__radio"); ("title", Some "$50.00");
                      ("id", Some "reward-B")];
    StartTag "h3" [("class", Some "pledge__title")];
    Data "Shirt";
    EndTag "h3";
    EndTag "ul" ].

(** A string in which whitespace occurs only as single spaces between
    other characters: none at either end, no two in a row, no tab or line
    break.  [after_space] says that a whitespace character is not allowed
    at this point. *)
Fixpoint collapsed_from (after_space : bool) (s : string) : bool :=
  match s with
  | EmptyString => negb after_space
  | String c rest =>
      if Py.isspace c
      then negb after_space && Ascii.eqb c " " && collapsed_from true rest
      else collapsed_from false rest
  end.

Definition collapsed (s : string) : bool :=
  match s with
  | EmptyString => true
  | _ => collapsed_from true s
  end.

(** No character of [s] is whitespace. *)
Fixpoint spaceless (s : string) : bool :=
  match s with
  | EmptyString => true
  | String c rest => negb (Py.isspace c) && spaceless rest
  end.

(** [float(a)] succeeds. *)
Definition is_number (W : World) (a : string) : bool :=
  match float W a with
  | Some _ => true
  | None => false
  end.

(** What one round of the loop adds to the history before it fetches. *)
Definition waiting (o : options) : history :=
  (if verbose o
   then [Print ("Waiting " +:+ Py.str_of_int (delay o) +:+ " minutes ...")]
   else [])
  ++ [Sleep (60 * delay o)].

(** ** The rest of the parser: [result] *)

(** [result]: the list of the last [process], an [AttributeError] on a
    parser that never processed a page. *)
Definition result_method (self : KickstarterHTMLParser) : result (list reward) :=
  getattr "rewards" (rewards self).

(** ** Further predicates used in the statements *)

(** Effects other than a push and a question to the user. *)
Definition silent (e : effect) : bool :=
  match e with
  | Post _ _ | Input _ => false
  | _ => true
  end.

Definition is_post (e : effect) : bool :=
  match e with
  | Post _ _ => true
  | _ => false
  end.


(** A run that ended before the loop: in [sys.exit] or in an exception. *)
Definition ended {A : Type} (o : outcome A) : bool :=
  match o with
  | SysExit _ | Throw _ => true
  | _ => false
  end.

(** The number of [</li>] callbacks of a page. *)
Fixpoint end_li_count (events : list event) : nat :=
  match events with
  | [] => O
  | EndTag tag :: rest =>
      ((if String.eqb tag "li" then 1 else 0) + end_li_count rest)%nat
  | _ :: rest => end_li_count rest
  end.

(** Only ASCII characters. *)
Fixpoint is_ascii (s : string) : bool :=
  match s with
  | EmptyString => true
  | String c rest => (Z.of_nat (nat_of_ascii c) <? 128) && is_ascii rest
  end.

Definition ascii_reward (r : reward) : bool :=
  is_ascii (item0 r) && is_ascii (item2 r).

(** The price, the description and the collected rewards of a parser hold
    ASCII characters only. *)
Definition ascii_parser (self : KickstarterHTMLParser) : bool :=
  match value self with Some v => is_ascii v | None => true end
  && match description self with Some d => is_ascii d | None => true end
  && match rewards self with Some rs => forallb ascii_reward rs | None => true end.

(** A sold-out tier as it stands on a page: what precedes it, and the parts
    of [single_block]. *)
Record tier : Type := mkTier {
  lead : list event;
  li_attrs : list (string * option string);
  input_attrs : list (string * option string);
  h3_attrs : list (string * option string);
  pre : list event;
  mid : list event;
  body : list event;
  post : list event
}.

Definition tier_events (t : tier) : list event :=
  lead t
  ++ single_block (li_attrs t) (input_attrs t) (h3_attrs t)
       (pre t) (mid t) (body t) (post t).

(** The tier is preceded by material without a candidate block, its
    container has the all-gone class, its selector the selector class, a
    title and an id, its title element the title class, and the rest is
    inline. *)
Definition well_formed (t : tier) : bool :=
  forallb no_all_gone (lead t) && forallb li_class_valued (lead t)
  && match class_of (li_attrs t) with
     | Some (Some c) => Py.contains all_gone c
     | _ => false
     end
  && match class_of (input_attrs t) with
     | Some (Some c) => Py.contains pledge_radio c && negb (Py.contains pledge_title c)
     | _ => false
     end
  && match Py.dict (input_attrs t) !! "title" with
     | Some (Some _) => true
     | _ => false
     end
  && match Py.dict (input_attrs t) !! "id" with
     | Some _ => true
     | None => false
     end
  && match class_of (h3_attrs t) with
     | Some (Some c) => Py.contains pledge_title c
     | _ => false
     end
  && forallb inline (pre t ++ mid t ++ body t ++ post t).

(** The record the tier stands for. *)
Definition record_of (charref_sub : string -> string) (t : tier) : reward :=
  (Py.ascii_ignore
     (match Py.dict (input_attrs t) !! "title" with
      | Some (Some price) => price
      | _ => ""
      end),
   match Py.dict (input_attrs t) !! "id" with
   | Some id => id
   | None => None
   end,
   Py.join " " (Py.split (text_of charref_sub (body t)))).

(** A candidate block with two selector controls. *)
Definition double_block (li_attrs input1 input2 h3_attrs : list (string * option string))
    (pre between mid body post : list event) : list event :=
  [StartTag "li" li_attrs] ++ pre ++ [StartTag "input" input1] ++ between
  ++ [StartTag "input" input2] ++ mid
  ++ [StartTag "h3" h3_attrs] ++ body ++ [EndTag "h3"] ++ post ++ [EndTag "li"].

(** The world [W] with a push service that raises [e] on every message. *)
Definition with_push_failure (W : World) (e : exn) : World :=
  mkWorld (charref_sub W) (pyfloat W) (float W) (float_eqb W) (int W)
    (http_get W) (fun _ => Some e) (strftime W) (stdin W).



(** The tokens of an answer are numbers between 1 and the number of
    rewards. *)
Definition valid_answer (W : World) (rewards : list reward)
    (tokens : list string) : bool :=
  forallb (fun t => match int W t with
                    | Some i => (1 <=? i) && (i <=? Z.of_nat (length rewards))
                    | None => false
                    end) tokens.

(** The reward a number of the menu stands for. *)
Definition numbered (W : World) (rewards : list reward) (t : string)
    : option reward :=
  i ← int W t; rewards !! Z.to_nat (i - 1).

(** What [n] rounds without a transition add to the history. *)
Fixpoint rounds_of (n : nat) (o : options) (url : string) : history :=
  match n with
  | O => []
  | S n' => (waiting o ++ [Get url]) ++ rounds_of n' o url
  end.

(** A candidate block whose title element is opened by the tag [tag]:
    everything between that start tag and [</li>] is [rest]. *)
Definition titled_block (li_attrs input_attrs title_attrs : list (string * option string))
    (tag : string) (rest : list event) : list event :=
  [StartTag "li" li_attrs; StartTag "input" input_attrs; StartTag tag title_attrs]
  ++ rest ++ [EndTag "li"].

(** [float(a)] fails. *)
Definition not_number (W : World) (a : string) : bool := negb (is_number W a).

(** ** [HTMLParser] from one call of [feed] to the next *)

(** [feed] appends the text to what the parser object has not parsed yet
    and parses as far as it can.  What it leaves unparsed (an incomplete
    tag at the end of the text) and whether it stopped inside a [script]
    or [style] element stay in the object for the next call: [process]
    calls neither [reset] nor [close], and the script has one parser
    object for all its polls.  [HTMLParser] belongs to Python's library:
    it is represented by the state it keeps ([residue], which is [fresh]
    in a new parser) and, for a state and a text, by the callbacks it
    makes and the state it leaves; [None] when its own code raises.  The
    callbacks of [KickstarterHTMLParser] do not touch that state. *)
Record Tokenizer : Type := mkTokenizer {
  residue : Type;
  fresh : residue;
  tokenize : residue -> string -> option (list event * residue)
}.

(** A site: the title and the text of the page it serves at the first
    request, at the second, and so on. *)
Definition site : Type := nat -> option string * string.

(** The number of requests made so far. *)
Fixpoint gets (h : history) : nat :=
  match h with
  | [] => O
  | Get _ :: rest => S (gets rest)
  | _ :: rest => gets rest
  end.

(** The state [HTMLParser] keeps in the script's parser object once the
    first [n] pages were fed to it; [None] once it raised. *)
Fixpoint residue_after (T : Tokenizer) (s : site) (n : nat)
    : option (residue T) :=
  match n with
  | O => Some (fresh T)
  | S n' =>
      match residue_after T s n' with
      | Some res =>
          match tokenize T res (s n').2 with
          | Some (_, res') => Some res'
          | None => None
          end
      | None => None
      end
  end.

(** The world of a run of the script against the site [s]: each page
    requested is fed to the one parser object, in the state the pages
    before left it in.  When [HTMLParser] itself raises on a text the
    call ends in an exception: the request counts as failed ([Fails]),
    the callbacks made before the exception being left out.  The other
    collaborators are those of [W]. *)
Definition site_world (T : Tokenizer) (s : site) (W : World) : World :=
  mkWorld (charref_sub W) (pyfloat W) (float W) (float_eqb W) (int W)
    (fun h _ =>
       match residue_after T s (gets h) with
       | Some res =>
           match tokenize T res (s (gets h)).2 with
           | Some (events, _) => Page (s (gets h)).1 events
           | None => Fails AssertionError
           end
       | None => Fails AssertionError
       end)
    (http_post W) (strftime W) (stdin W).

(** The options of a command line without [-d] and [-v]. *)
Definition default_options : options := mkOptions 1 false.

(** What the script adds to the history from its start to the line before
    [while True], when the page has the one reward [r] and the title
    [title]. *)
Definition started (url title : string) (r : reward) : history :=
  [ Get url;
    Print "Automatically selecting the only limited award available:";
    Print (item0 r +:+ " " +:+ Py.take 74 (item2 r));
    Print (nl +:+ "Selected rewards:");
    Print (item2 r);
    Print (nl +:+ "Sending test push to make sure everything is OK");
    Post ("Start watching: " +:+ Py.strip title) url;
    Print (nl +:+ "Watching...") ].

(** *** Markup for the examples *)

(** One sold-out tier, complete; and the same followed by a [script]
    element that is not closed. *)
Definition markup_B : string :=
  "<li class='pledge pledge--all-gone'>"
  +:+ "<input class='pledge__radio' title='$50.00' id='reward-B'/>"
  +:+ "<h3 class='pledge__title'>Shirt</h3></li>".

Definition markup_B_script : string := markup_B +:+ "<script>".

(** What [HTMLParser] does on these two texts, as a table.  The state is
    whether the parser is inside a [script] element, and the text not
    parsed yet.  A complete page leaves the state of a new parser; after
    [<script>] nothing is a tag until [</script>] comes, so each further
    text is kept whole and gives no callback.  The table has no other
    text: for those it answers [None]. *)
Definition sample_tokenizer : Tokenizer :=
  {| residue := bool * string;
     fresh := (false, "");
     tokenize := fun res text =>
       if res.1 then Some ([], (true, res.2 +:+ text))
       else if String.eqb (res.2 +:+ text) markup_B
       then Some (Sample.block "$50.00" "reward-B" "Shirt", (false, ""))
       else if String.eqb (res.2 +:+ text) markup_B_script
       then Some (Sample.block "$50.00" "reward-B" "Shirt" ++ [StartTag "script" []],
                  (true, ""))
       else None |}.

(** * Properties *)

(** ** Running the monad *)

Lemma bind_return {A B : Type} (m : M A) (f : A -> M B) (h h' : history) (a : A) :
  m h = (Return a, h') -> (m ≫= f) h = f a h'.
Proof. intros E. unfold mbind, M_bind. now rewrite E. Qed.

Lemma bind_throw {A B : Type} (m : M A) (f : A -> M B) (h h' : history) (e : exn) :
  m h = (Throw e, h') -> (m ≫= f) h = (Throw e, h').
Proof. intros E. unfold mbind, M_bind. now rewrite E. Qed.

Lemma bind_exit {A B : Type} (m : M A) (f : A -> M B) (h h' : history) (c : Z) :
  m h = (SysExit c, h') -> (m ≫= f) h = (SysExit c, h').
Proof. intros E. unfold mbind, M_bind. now rewrite E. Qed.

Lemma bind_return_inv {A B : Type} (m : M A) (f : A -> M B) (h h' : history) (b : B) :
  (m ≫= f) h = (Return b, h') ->
  exists (a : A) (h1 : history), m h = (Return a, h1) /\ f a h1 = (Return b, h').
Proof.
  unfold mbind, M_bind. destruct (m h) as [[a| | |] h1]; try discriminate.
  intros E. eauto.
Qed.

(** ** Names that are bound nowhere *)

Lemma string_unbound : lookup_global [] "string" = throw (NameError "string").
Proof. vm_compute. reflexivity. Qed.

Lemma xrange_unbound :
  lookup_global menu_locals "xrange" = throw (NameError "xrange").
Proof. vm_compute. reflexivity. Qed.

Lemma raw_input_unbound :
  lookup_global menu_locals "raw_input" = throw (NameError "raw_input").
Proof. vm_compute. reflexivity. Qed.

(** ** The watch loop at an availability transition *)

Section Transition.

Context (W : World).

(** As soon as the scan meets a reward that became available, it prints
    the time-stamped line and stops on the call of [string]. *)
Lemma scan_transition (url : string) (latest rest sel : list reward) (h : history) :
  existsb (became_available latest) rest = true ->
  scan W url latest rest sel h
  = (Throw (NameError "string"),
     h ++ [Print (strftime W h +:+ " - Reward available!")]).
Proof.
  induction rest as [|s rest IH]; simpl; [discriminate|].
  unfold became_available at 1.
  destruct (negb (bool_decide (item1 s ∈ map item1 latest))) eqn:E; simpl.
  - intros _. rewrite string_unbound. reflexivity.
  - exact IH.
Qed.

(** Without such a reward the scan changes nothing. *)
Lemma scan_quiet (url : string) (latest rest sel : list reward) (h : history) :
  existsb (became_available latest) rest = false ->
  scan W url latest rest sel h = (Return sel, h).
Proof.
  induction rest as [|s rest IH]; simpl; [reflexivity|].
  unfold became_available at 1.
  destruct (negb (bool_decide (item1 s ∈ map item1 latest))) eqn:E; simpl.
  - discriminate.
  - exact IH.
Qed.

Lemma cycle_transition (o : options) (url : string) (st : loop_state) (h : history) :
  existsb (became_available (latest st)) (selected st) = true ->
  cycle W o url st h
  = (Throw (NameError "string"),
     h ++ [Print (strftime W h +:+ " - Reward available!")]).
Proof.
  intros H. unfold cycle.
  apply bind_throw. now apply scan_transition.
Qed.

End Transition.

(** C8.  The spec: when a transition empties the watch-set, the loop pauses
    for the grace delay and exits with code 0.  The code: when the only
    watched reward became available, the round ends in the [NameError] of
    C1 before the reward is removed: there is no [time.sleep(10)] and no
    [sys.exit(0)], whatever number of rounds is observed. *)
Theorem last_reward_available_NameError (W : World) (o : options) (url : string)
    (parser : KickstarterHTMLParser) (s : reward) (rewards : list reward)
    (h : history) (n : nat) :
  item1 s ∉ map item1 rewards ->
  cycles W (S n) o url (mkLoop parser [s] rewards) h
  = (Throw (NameError "string"),
     h ++ [Print (strftime W h +:+ " - Reward available!")]).
Proof.
  intros H. simpl. apply bind_throw. apply cycle_transition. simpl.
  unfold became_available. rewrite bool_decide_eq_false_2 by exact H.
  reflexivity.
Qed.

Lemma last_reward_available_NameError_B :
  (item1 Sample.B ∉ map item1 [Sample.A])
  /\ cycles (Sample.world [Sample.page_AC] "") 1 (mkOptions 1 false) "u"
       (mkLoop init [Sample.B] [Sample.A]) []
     = (Throw (NameError "string"),
        [Print "November 04, 2026 10:00 AM - Reward available!"]).
Proof.
  assert (H : item1 Sample.B ∉ map item1 [Sample.A]).
  { apply (bool_decide_unpack _). vm_compute. exact I. }
  split; [exact H|].
  exact (last_reward_available_NameError (Sample.world [Sample.page_AC] "")
           (mkOptions 1 false) "u" init Sample.B [Sample.A] [] 0%nat H).
Defined.

(** ** A poll that fails *)

Section PollFailure.

Context (W : World).

Lemma cycle_quiet_prefix (o : options) (url : string) (st : loop_state)
    (h : history) :
  existsb (became_available (latest st)) (selected st) = false ->
  0 <= delay o ->
  cycle W o url st h
  = ('(ks', rewards') ← process W (ks st) url;
     mret (mkLoop ks' (selected st) rewards')) (h ++ waiting o).
Proof.
  intros Hq Hd. unfold cycle.
  erewrite bind_return by (now apply scan_quiet).
  unfold waiting, sleep.
  destruct (60 * delay o <? 0) eqn:E; [lia|].
  destruct (verbose o); simpl; unfold mbind, M_bind, print, emit; simpl;
    rewrite <- ?app_assoc; reflexivity.
Qed.

Lemma process_fails (self : KickstarterHTMLParser) (url : string)
    (h : history) (e : exn) :
  http_get W h url = Fails e
  \/ (exists title events,
        http_get W h url = Page title events
        /\ parse (charref_sub W) self title events = Raise e) ->
  process W self url h = (Throw e, h ++ [Get url]).
Proof.
  unfold process, requests_get, mbind, M_bind.
  intros [E | (title & events & E & P)]; rewrite E; simpl.
  - reflexivity.
  - rewrite P. reflexivity.
Qed.

End PollFailure.

(** A failure of the push service leaves [push_message] as an exception. *)
Lemma push_message_fails (W : World) (message url : string) (h : history)
    (e : exn) :
  http_post W h = Some e ->
  push_message W message url h = (Throw e, h ++ [Post message url]).
Proof. intros Hpost. unfold push_message. now rewrite Hpost. Qed.

(** C4, as the code has it.  Nothing in the loop catches an exception.  In
    a round without a transition, when the fetch fails with [e], or the
    page fetched makes the parser raise [e], the round ends in [e] after
    the sleep and the request: the exception leaves the loop, whatever
    number of further rounds is observed; the history of the round shows no
    push. *)
Theorem poll_failure_leaves_loop (W : World) (o : options) (url : string)
    (st : loop_state) (h : history) (e : exn) (n : nat) :
  existsb (became_available (latest st)) (selected st) = false ->
  0 <= delay o ->
  (http_get W (h ++ waiting o) url = Fails e
   \/ exists title events,
        http_get W (h ++ waiting o) url = Page title events
        /\ parse (charref_sub W) (ks st) title events = Raise e) ->
  cycle W o url st h = (Throw e, (h ++ waiting o) ++ [Get url])
  /\ cycles W (S n) o url st h = (Throw e, (h ++ waiting o) ++ [Get url]).
Proof.
  intros Hq Hd Hf.
  assert (C : cycle W o url st h = (Throw e, (h ++ waiting o) ++ [Get url])).
  { rewrite cycle_quiet_prefix by assumption.
    apply bind_throw. now apply process_fails. }
  split; [exact C|].
  simpl. now apply bind_throw.
Qed.

Lemma poll_failure_leaves_loop_B :
  cycle (Sample.world [] "") (mkOptions 1 true) "u"
    (mkLoop init [Sample.B] [Sample.B]) []
  = (Throw RequestError, [Print "Waiting 1 minutes ..."; Sleep 60; Get "u"])
  /\ cycles (Sample.world [] "") 4 (mkOptions 1 true) "u"
       (mkLoop init [Sample.B] [Sample.B]) []
     = (Throw RequestError, [Print "Waiting 1 minutes ..."; Sleep 60; Get "u"]).
Proof.
  apply (poll_failure_leaves_loop (Sample.world [] "") (mkOptions 1 true) "u"
           (mkLoop init [Sample.B] [Sample.B]) [] RequestError 3%nat).
  - reflexivity.
  - simpl. lia.
  - left. reflexivity.
Defined.

(** C4, as the spec has it, fails: the watch-set [{B}] is still unavailable,
    the fetch of the first round fails, and of the five rounds observed
    only that one runs: the loop ends in the exception of the fetch. *)
Lemma fetch_failure_stops_polling :
  cycles (Sample.world [] "") 5 (mkOptions 1 false) "u"
    (mkLoop init [Sample.B] [Sample.B]) []
  = (Throw RequestError, [Sleep 60; Get "u"]).
Proof. vm_compute. reflexivity. Qed.

(** ** Selection by amount *)

Section ByAmount.

Context (W : World).

(** A price is a string and every element of [pledges] a float: no
    element equals it, and the search reads the iterator to its end. *)
Lemma in_pledges_str (price : string) (pledges : list string) :
  in_pledges W (PStr W price) pledges = Ok (false, [])
  \/ in_pledges W (PStr W price) pledges = Raise ValueError.
Proof.
  induction pledges as [|a rest IH]; simpl.
  - now left.
  - destruct (float W a); [exact IH | now right].
Qed.

Lemma select_pledges_nothing (rewards : list reward) (pledges : list string) :
  select_pledges W rewards pledges = Ok []
  \/ select_pledges W rewards pledges = Raise ValueError.
Proof.
  revert pledges. induction rewards as [|r rs IH]; intros pledges; simpl.
  - now left.
  - destruct (in_pledges_str (item0 r) pledges) as [E | E]; rewrite E; simpl.
    + destruct (IH []) as [E' | E']; rewrite E'; simpl; [now left | now right].
    + now right.
Qed.

Lemma in_pledges_numbers (price : string) (pledges : list string) :
  forallb (is_number W) pledges = true ->
  in_pledges W (PStr W price) pledges = Ok (false, []).
Proof.
  induction pledges as [|a rest IH]; simpl; [reflexivity|].
  unfold is_number at 1. destruct (float W a); simpl; [exact IH | discriminate].
Qed.

Lemma select_pledges_numbers (rewards : list reward) (pledges : list string) :
  forallb (is_number W) pledges = true ->
  select_pledges W rewards pledges = Ok [].
Proof.
  intros H. revert pledges H.
  induction rewards as [|r rs IH]; intros pledges H; simpl; [reflexivity|].
  rewrite in_pledges_numbers by exact H. simpl.
  rewrite IH by reflexivity. reflexivity.
Qed.

End ByAmount.

(** C2.  The spec: with target amounts on the command line the selection
    holds the records whose price token matches one of them; for prices
    ["$50.00"; "$75.00"] and an amount matching "$75.00" it is that record.
    The code compares the price, a string, with the amounts converted by
    [float], and a string equals no float: when amounts are given
    ([len(sys.argv) > 2]) and each of them is a number, the comprehension
    selects no record, whatever the rewards on the page, and the script
    prints 'No reward selected.' and exits.  (An amount that is no number,
    such as "$75.00" itself, ends the script in [ValueError]:
    [select_pledges_nothing].) *)
Theorem amounts_select_nothing (W : World) (rounds argc : nat)
    (arg0 : string) (amounts : list string) (h : history)
    (title : option string) (events : list event)
    (parser : KickstarterHTMLParser) (rewards : list reward) :
  (2 < argc)%nat ->
  http_get W h (pledge_url arg0) = Page title events ->
  parse (charref_sub W) init title events = Ok (parser, rewards) ->
  bool_decide (rewards = []) = false ->
  forallb (is_number W) amounts = true ->
  select_pledges W rewards amounts = Ok []
  /\ startup W rounds argc (arg0 :: amounts) h
     = (SysExit 0, h ++ [Get (pledge_url arg0);
                         Print "No reward selected."]).
Proof.
  intros Hargc Hget Hparse Hr Hnum.
  pose proof (select_pledges_numbers W rewards amounts Hnum) as E.
  split; [exact E|].
  unfold startup.
  assert (Hc : (2 <? Z.of_nat argc) = true) by lia.
  rewrite Hc.
  set (url := pledge_url arg0) in *.
  assert (P : process W init url h = (Return (parser, rewards), h ++ [Get url])).
  { unfold process, requests_get, mbind, M_bind. rewrite Hget. simpl.
    rewrite Hparse. reflexivity. }
  rewrite (bind_return _ _ _ _ _ P). rewrite Hr.
  unfold mbind at 1, M_bind at 1. simpl.
  unfold mbind at 1, M_bind at 1. rewrite E. simpl.
  unfold mbind, M_bind, print, emit, sys_exit. simpl.
  rewrite <- app_assoc. reflexivity.
Qed.

Lemma amounts_select_nothing_75 :
  select_pledges (Sample.world [Sample.page_BC] "") [Sample.B; Sample.C] ["75.00"]
  = Ok []
  /\ startup (Sample.world [Sample.page_BC] "") 1 3 ["http://k/p?ref=x"; "75.00"] []
     = (SysExit 0, [Get "http://k/p/pledge/new"; Print "No reward selected."]).
Proof.
  refine (amounts_select_nothing (Sample.world [Sample.page_BC] "") 1 3
            "http://k/p?ref=x" ["75.00"] [] (Some " Gadget ") _ _
            [Sample.B; Sample.C] _ _ _ _ _).
  - lia.
  - reflexivity.
  - vm_compute. reflexivity.
  - reflexivity.
  - reflexivity.
Defined.

(** ** The selection menu *)

(** C9.  The spec: a single candidate is selected automatically; several
    are listed and the user is asked for indices, an invalid one leading to
    a new prompt.  The code does the first.  For any other number of
    candidates [pledge_menu] ends in [NameError: name 'xrange' is not
    defined] before it lists anything: nothing is printed and nothing is
    asked, whatever the user would type. *)
Theorem pledge_menu_python3 (W : World) (rounds : nat) (h : history) :
  (forall r : reward,
      pledge_menu W rounds [r] h
      = (Return [r],
         h ++ [Print "Automatically selecting the only limited award available:";
               Print (item0 r +:+ " " +:+ Py.take 74 (item2 r))]))
  /\ (forall rewards : list reward,
         length rewards ≠ 1%nat ->
         pledge_menu W rounds rewards h = (Throw (NameError "xrange"), h)).
Proof.
  split.
  - intros r. unfold pledge_menu, mbind, M_bind, print, emit. simpl.
    rewrite <- app_assoc. reflexivity.
  - intros rewards Hlen. unfold pledge_menu.
    destruct rewards as [|r [|r' rs]]; simpl in Hlen; try congruence;
      rewrite xrange_unbound; reflexivity.
Qed.

Lemma pledge_menu_two_candidates :
  pledge_menu (Sample.world [] "1 2") 3 [Sample.B; Sample.C] []
  = (Throw (NameError "xrange"), []).
Proof.
  apply (proj2 (pledge_menu_python3 (Sample.world [] "1 2") 3 [])).
  simpl. lia.
Defined.

(** ** The extractor *)

Lemma string_app_assoc (a b c : string) : (a +:+ b) +:+ c = a +:+ (b +:+ c).
Proof.
  induction a as [|x a IH]; [reflexivity|].
  change (String x ((a +:+ b) +:+ c) = String x (a +:+ (b +:+ c))).
  now rewrite IH.
Qed.

Lemma string_app_nil_r (a : string) : a +:+ "" = a.
Proof.
  induction a as [|x a IH]; [reflexivity|].
  change (String x (a +:+ "") = String x a).
  now rewrite IH.
Qed.

Section ExtractorFacts.

Variable cs : string -> string.

Lemma feed_app (self : KickstarterHTMLParser) (xs ys : list event) :
  feed cs self (xs ++ ys) = (self' ← feed cs self xs; feed cs self' ys).
Proof.
  revert self. induction xs as [|x xs IH]; intros self; simpl; [reflexivity|].
  destruct (handle cs self x); simpl; [apply IH | reflexivity].
Qed.

Lemma feed_app_ok (self self' : KickstarterHTMLParser) (xs ys : list event) :
  feed cs self xs = Ok self' -> feed cs self (xs ++ ys) = feed cs self' ys.
Proof. intros E. rewrite feed_app, E. reflexivity. Qed.

Lemma feed_app_raise (self : KickstarterHTMLParser) (xs ys : list event) (e : exn) :
  feed cs self xs = Raise e -> feed cs self (xs ++ ys) = Raise e.
Proof. intros E. rewrite feed_app, E. reflexivity. Qed.

(** Inline events outside a title block change nothing. *)
Lemma feed_inline_outside (self : KickstarterHTMLParser) (events : list event) :
  in_desc_block self = false ->
  forallb inline events = true ->
  feed cs self events = Ok self.
Proof.
  intros Hd. induction events as [|e events IH]; simpl; [reflexivity|].
  intros H. apply andb_prop in H as [He Hs].
  destruct e as [tag attributes | tag | data]; simpl in *.
  - unfold handle_starttag. unfold class_of in He.
    destruct (Py.dict attributes !! "class"); [discriminate|]. simpl. now apply IH.
  - apply andb_prop in He as [Hli Hh3].
    unfold handle_endtag.
    destruct (String.eqb tag "li"); [discriminate|].
    destruct (String.eqb tag "h3"); [discriminate|]. simpl. now apply IH.
  - unfold handle_data. rewrite Hd. simpl. now apply IH.
Qed.

(** Inside a title block their text is appended to the description. *)
Lemma feed_inline_inside (self : KickstarterHTMLParser) (d : string)
    (events : list event) :
  in_desc_block self = true ->
  description self = Some d ->
  forallb inline events = true ->
  feed cs self events = Ok (set_description (d +:+ text_of cs events) self).
Proof.
  revert self d. induction events as [|e events IH]; intros self d Hd Hdesc; simpl.
  - intros _. rewrite string_app_nil_r. destruct self; simpl in *. now subst.
  - intros H. apply andb_prop in H as [He Hs].
    destruct e as [tag attributes | tag | data]; simpl in *.
    + unfold handle_starttag. unfold class_of in He.
      destruct (Py.dict attributes !! "class"); [discriminate|]. simpl. now apply IH.
    + apply andb_prop in He as [Hli Hh3].
      unfold handle_endtag.
      destruct (String.eqb tag "li"); [discriminate|].
      destruct (String.eqb tag "h3"); [discriminate|]. simpl. now apply IH.
    + unfold handle_data. rewrite Hd, Hdesc. simpl.
      rewrite (IH _ (d +:+ Py.ascii_ignore (Py.unescape cs data))) by (assumption || reflexivity).
      rewrite string_app_assoc. reflexivity.
Qed.

End ExtractorFacts.

(** *** The callbacks one by one *)

Section Steps.

Variable cs : string -> string.

Lemma start_candidate (self : KickstarterHTMLParser)
    (attributes : list (string * option string)) (c : string) :
  in_li_block self = false ->
  class_of attributes = Some (Some c) ->
  Py.contains all_gone c = true ->
  handle_starttag self "li" attributes
  = Ok (set_description "" (set_in_li_block true self)).
Proof.
  unfold class_of, all_gone, handle_starttag. intros Hli Hc Hin.
  rewrite Hc, Hli. simpl. rewrite Hli. simpl. rewrite Hin. reflexivity.
Qed.

Lemma start_selector (self : KickstarterHTMLParser)
    (attributes : list (string * option string)) (c price : string)
    (id : option string) :
  in_li_block self = true ->
  class_of attributes = Some (Some c) ->
  Py.contains pledge_radio c = true ->
  Py.contains pledge_title c = false ->
  Py.dict attributes !! "title" = Some (Some price) ->
  Py.dict attributes !! "id" = Some id ->
  handle_starttag self "input" attributes
  = Ok (set_ident id (set_value (Py.ascii_ignore price) self)).
Proof.
  unfold class_of, pledge_radio, pledge_title, handle_starttag.
  intros Hli Hc Hradio Htitle Hp Hid.
  rewrite Hc, Hli. simpl. rewrite Htitle. simpl. rewrite Hli. simpl.
  rewrite Hradio. simpl. unfold Py.getitem. rewrite Hp, Hid. reflexivity.
Qed.

Lemma start_title (self : KickstarterHTMLParser)
    (attributes : list (string * option string)) (c : string) :
  in_li_block self = true ->
  class_of attributes = Some (Some c) ->
  Py.contains pledge_title c = true ->
  handle_starttag self "h3" attributes = Ok (set_in_desc_block true self).
Proof.
  unfold class_of, pledge_title, handle_starttag. intros Hli Hc Hin.
  rewrite Hc, Hli. simpl. rewrite Hin. simpl. rewrite Hli. reflexivity.
Qed.

Lemma end_title (self : KickstarterHTMLParser) :
  handle_endtag self "h3" = Ok (set_in_desc_block false self).
Proof. reflexivity. Qed.

Lemma end_candidate (self : KickstarterHTMLParser) (rs : list reward)
    (v : string) (i : option string) (d : string) :
  in_li_block self = true ->
  rewards self = Some rs ->
  value self = Some v ->
  ident self = Some i ->
  description self = Some d ->
  handle_endtag self "li"
  = Ok (set_in_li_block false
          (set_rewards (rs ++ [(v, i, Py.join " " (Py.split d))]) self)).
Proof.
  unfold handle_endtag. intros Hli Hr Hv Hi Hd. simpl.
  rewrite Hli, Hr, Hv, Hi, Hd. reflexivity.
Qed.

(** A candidate block closed before any selector control was ever seen. *)
Lemma end_candidate_no_value (self : KickstarterHTMLParser) (rs : list reward) :
  in_li_block self = true ->
  rewards self = Some rs ->
  value self = None ->
  handle_endtag self "li" = Raise (AttributeError "value").
Proof.
  unfold handle_endtag. intros Hli Hr Hv. simpl.
  rewrite Hli, Hr, Hv. reflexivity.
Qed.

(** The whole of a single candidate block, on a parser that is outside any
    block and has its list of rewards. *)
Lemma feed_single_block (self : KickstarterHTMLParser) (rs : list reward)
    (li_attrs input_attrs h3_attrs : list (string * option string))
    (cl ci ch price : string) (id : option string)
    (pre mid body post : list event) :
  in_li_block self = false ->
  in_desc_block self = false ->
  rewards self = Some rs ->
  class_of li_attrs = Some (Some cl) ->
  Py.contains all_gone cl = true ->
  class_of input_attrs = Some (Some ci) ->
  Py.contains pledge_radio ci = true ->
  Py.contains pledge_title ci = false ->
  Py.dict input_attrs !! "title" = Some (Some price) ->
  Py.dict input_attrs !! "id" = Some id ->
  class_of h3_attrs = Some (Some ch) ->
  Py.contains pledge_title ch = true ->
  forallb inline (pre ++ mid ++ body ++ post) = true ->
  exists self',
    feed cs self (single_block li_attrs input_attrs h3_attrs pre mid body post)
    = Ok self'
    /\ rewards self'
       = Some (rs ++ [(Py.ascii_ignore price, id,
                       Py.join " " (Py.split (text_of cs body)))])
    /\ in_li_block self' = false /\ in_desc_block self' = false.
Proof.
  intros Hli Hdesc Hrs Hcl Hgone Hci Hradio Hnt Hprice Hid Hch Htitle Hin.
  rewrite !forallb_app in Hin.
  apply andb_prop in Hin as [Hpre Hin]. apply andb_prop in Hin as [Hmid Hin].
  apply andb_prop in Hin as [Hbody Hpost].
  unfold single_block.
  cbn [app feed handle]. erewrite start_candidate by eassumption. cbn [mbind result_bind].
  erewrite feed_app_ok by (apply feed_inline_outside; [exact Hdesc | exact Hpre]).
  cbn [app feed handle]. erewrite start_selector by (eassumption || reflexivity).
  cbn [mbind result_bind].
  erewrite feed_app_ok by (apply feed_inline_outside; [exact Hdesc | exact Hmid]).
  cbn [app feed handle]. erewrite start_title by (eassumption || reflexivity).
  cbn [mbind result_bind].
  erewrite feed_app_ok
    by (apply (feed_inline_inside cs _ ""); [reflexivity | reflexivity | exact Hbody]).
  cbn [app feed handle]. rewrite end_title. cbn [mbind result_bind].
  erewrite feed_app_ok by (apply feed_inline_outside; [reflexivity | exact Hpost]).
  cbn [app feed handle].
  erewrite end_candidate by (reflexivity || exact Hrs).
  cbn [mbind result_bind]. eexists. split; [reflexivity|].
  simpl. auto.
Qed.

End Steps.

Lemma process_page (W : World) (self : KickstarterHTMLParser) (url : string)
    (h : history) (title : option string) (events : list event) :
  http_get W h url = Page title events ->
  process W self url h
  = (match parse (charref_sub W) self title events with
     | Ok a => Return a
     | Raise e => Throw e
     end, h ++ [Get url]).
Proof.
  intros Hget. unfold process, requests_get, mbind, M_bind. rewrite Hget.
  destruct (parse (charref_sub W) self title events); reflexivity.
Qed.



(** *** A candidate block without a selector control *)

Section NoSelector.

Variable cs : string -> string.

(** Inside a candidate block, while no selector was ever captured, events
    that capture none keep the parser there. *)
Lemma feed_selector_free (self : KickstarterHTMLParser) (events : list event) :
  in_li_block self = true ->
  value self = None ->
  is_Some (rewards self) ->
  is_Some (description self) ->
  forallb selector_free events = true ->
  exists self',
    feed cs self events = Ok self'
    /\ in_li_block self' = true /\ value self' = None
    /\ is_Some (rewards self') /\ is_Some (description self').
Proof.
  revert self. induction events as [|e events IH]; intros self Hli Hv Hr Hd Hall.
  - exists self. simpl. auto.
  - simpl in Hall. apply andb_prop in Hall as [He Hall].
    assert (Hstep : exists s1, handle cs self e = Ok s1
              /\ in_li_block s1 = true /\ value s1 = None
              /\ is_Some (rewards s1) /\ is_Some (description s1)).
    { destruct e as [tag attributes | tag | data]; simpl in *.
      - unfold handle_starttag. unfold class_of in He.
        destruct (Py.dict attributes !! "class") as [[c|]|]; try discriminate.
        + rewrite Hli. simpl.
          assert (Hself1 : in_li_block
                    (if Py.contains "pledge__title" c
                     then set_in_desc_block true self else self) = true)
            by (destruct (Py.contains "pledge__title" c); exact Hli).
          rewrite Hself1. simpl.
          unfold pledge_radio in He.
          destruct (String.eqb tag "input") eqn:Einput; simpl in *.
          * destruct (Py.contains "pledge__radio" c); [discriminate|]. simpl.
            assert (Eli : String.eqb tag "li" = false).
            { apply String.eqb_eq in Einput. subst tag. reflexivity. }
            rewrite Eli. eexists. split; [reflexivity|].
            destruct (Py.contains "pledge__title" c); simpl; auto.
          * destruct (String.eqb tag "li"); simpl.
            -- eexists. split; [reflexivity|].
               destruct (Py.contains "pledge--all-gone" c),
                 (Py.contains "pledge__title" c); simpl; eauto.
            -- eexists. split; [reflexivity|].
               destruct (Py.contains "pledge__title" c); simpl; auto.
        + exists self. auto.
      - unfold handle_endtag.
        destruct (String.eqb tag "li"); [discriminate|]. simpl.
        eexists. split; [reflexivity|].
        destruct (String.eqb tag "h3"); simpl; auto.
      - unfold handle_data. destruct (in_desc_block self).
        + destruct Hd as [d Hd]. rewrite Hd. simpl.
          eexists. split; [reflexivity|]. simpl. eauto.
        + exists self. auto. }
    destruct Hstep as (s1 & E1 & Hli1 & Hv1 & Hr1 & Hd1).
    destruct (IH s1 Hli1 Hv1 Hr1 Hd1 Hall) as (s2 & E2 & H2).
    exists s2. simpl. rewrite E1. simpl. auto.
Qed.

End NoSelector.

(** C5.  The spec: a candidate block without a selector control gives a
    record with an empty price and an empty identifier.  The code: on a new
    parser, when a page opens a candidate block and closes it with no
    selector control in between, [process] ends in
    [AttributeError: ... has no attribute 'value'] at the [</li>]: the
    attributes [value] and [ident] exist only once a selector control was
    captured. *)
Theorem block_without_selector_raises (W : World) (url : string) (h : history)
    (title : option string) (li_attrs : list (string * option string))
    (cl : string) (body post : list event) :
  http_get W h url
  = Page title ([StartTag "li" li_attrs] ++ body ++ [EndTag "li"] ++ post) ->
  class_of li_attrs = Some (Some cl) ->
  Py.contains all_gone cl = true ->
  forallb selector_free body = true ->
  process W init url h = (Throw (AttributeError "value"), h ++ [Get url]).
Proof.
  intros Hget Hcl Hgone Hbody.
  rewrite (process_page W init url h _ _ Hget). unfold parse.
  cbn [app feed handle]. erewrite start_candidate by (eassumption || reflexivity).
  cbn [mbind result_bind].
  destruct (feed_selector_free (charref_sub W)
              (set_description "" (set_in_li_block true
                 (set_rewards [] (set_name title init)))) body)
    as (s1 & E1 & Hli1 & Hv1 & [rs Hr1] & _); simpl; eauto.
  erewrite feed_app_ok by exact E1.
  cbn [app feed handle].
  erewrite end_candidate_no_value by eassumption.
  reflexivity.
Qed.

Lemma block_without_selector_raises_shirt :
  process
    (Sample.world
       [Page None
          [ StartTag "li" [("class", Some "pledge pledge--all-gone")];
            StartTag "h3" [("class", Some "pledge__title")];
            Data "Shirt";
            EndTag "h3";
            EndTag "li" ]] "")
    init "u" []
  = (Throw (AttributeError "value"), [Get "u"]).
Proof.
  apply (block_without_selector_raises
           (Sample.world
              [Page None
                 ([StartTag "li" [("class", Some "pledge pledge--all-gone")]]
                  ++ [StartTag "h3" [("class", Some "pledge__title")];
                      Data "Shirt"; EndTag "h3"]
                  ++ [EndTag "li"] ++ [])] "")
           "u" [] None [("class", Some "pledge pledge--all-gone")]
           "pledge pledge--all-gone"
           [StartTag "h3" [("class", Some "pledge__title")]; Data "Shirt";
            EndTag "h3"]
           []); vm_compute; reflexivity.
Defined.

(** Once a selector control was captured, a later block without one is
    given the price and the identifier of that earlier block. *)
Example block_without_selector_stale :
  parse (fun s => s) init None
    (Sample.block "$50.00" "reward-B" "Shirt"
     ++ [ StartTag "li" [("class", Some "pledge pledge--all-gone")];
          StartTag "h3" [("class", Some "pledge__title")];
          Data "Poster";
          EndTag "h3";
          EndTag "li" ])
  = Ok (mkParser false false None
          (Some [("$50.00", Some "reward-B", "Shirt");
                 ("$50.00", Some "reward-B", "Poster")])
          (Some "$50.00") (Some (Some "reward-B")) (Some "Poster"),
        [("$50.00", Some "reward-B", "Shirt");
         ("$50.00", Some "reward-B", "Poster")]).
Proof. vm_compute. reflexivity. Qed.

(** *** A selector control without its attributes *)

(** C10.  Inside a candidate block, an [input] tag of the selector class
    that lacks the [title] attribute, or the [id] attribute, makes the
    callback raise: [KeyError('title')] when there is no title; otherwise
    [KeyError('id')] ([AttributeError] when the title has no value).  The
    exception leaves [process]: on any page that reaches such a tag inside
    a candidate block, [process] ends in it. *)
Theorem selector_missing_attribute_raises (W : World)
    (parser : KickstarterHTMLParser) (url : string) (h : history)
    (title : option string) (pre post : list event)
    (attributes : list (string * option string)) (c : string)
    (self : KickstarterHTMLParser) :
  http_get W h url = Page title (pre ++ [StartTag "input" attributes] ++ post) ->
  feed (charref_sub W) (set_rewards [] (set_name title parser)) pre = Ok self ->
  in_li_block self = true ->
  class_of attributes = Some (Some c) ->
  Py.contains pledge_radio c = true ->
  Py.dict attributes !! "title" = None \/ Py.dict attributes !! "id" = None ->
  handle_starttag self "input" attributes
  = Raise (match Py.dict attributes !! "title" with
           | None => KeyError "title"
           | Some None => AttributeError "encode"
           | Some (Some _) => KeyError "id"
           end)
  /\ process W parser url h
     = (Throw (match Py.dict attributes !! "title" with
               | None => KeyError "title"
               | Some None => AttributeError "encode"
               | Some (Some _) => KeyError "id"
               end), h ++ [Get url]).
Proof.
  intros Hget Hpre Hli Hc Hradio Hlack.
  assert (Hs : handle_starttag self "input" attributes
               = Raise (match Py.dict attributes !! "title" with
                        | None => KeyError "title"
                        | Some None => AttributeError "encode"
                        | Some (Some _) => KeyError "id"
                        end)).
  { unfold class_of, pledge_radio in *. unfold handle_starttag.
    rewrite Hc, Hli. simpl.
    assert (Hself1 : in_li_block
              (if Py.contains "pledge__title" c
               then set_in_desc_block true self else self) = true)
      by (destruct (Py.contains "pledge__title" c); exact Hli).
    rewrite Hself1. simpl. rewrite Hradio. simpl. unfold Py.getitem.
    destruct (Py.dict attributes !! "title") as [[t|]|] eqn:Et; simpl;
      try reflexivity.
    destruct Hlack as [Hlack | Hlack]; [discriminate|].
    rewrite Hlack. reflexivity. }
  split; [exact Hs|].
  rewrite (process_page W parser url h _ _ Hget). unfold parse.
  erewrite feed_app_ok by exact Hpre.
  cbn [app feed handle]. rewrite Hs. reflexivity.
Qed.

Lemma selector_missing_attribute_raises_no_title :
  handle_starttag
    (set_description "" (set_in_li_block true (set_rewards [] (set_name None init))))
    "input" [("class", Some "pledge__radio"); ("id", Some "reward-42")]
  = Raise (KeyError "title")
  /\ process
       (Sample.world
          [Page None
             [ StartTag "li" [("class", Some "pledge pledge--all-gone")];
               StartTag "input" [("class", Some "pledge__radio");
                                 ("id", Some "reward-42")];
               EndTag "li" ]] "")
       init "u" []
     = (Throw (KeyError "title"), [Get "u"]).
Proof.
  apply (selector_missing_attribute_raises
           (Sample.world
              [Page None
                 ([StartTag "li" [("class", Some "pledge pledge--all-gone")]]
                  ++ [StartTag "input" [("class", Some "pledge__radio");
                                        ("id", Some "reward-42")]]
                  ++ [EndTag "li"])] "")
           init "u" [] None
           [StartTag "li" [("class", Some "pledge pledge--all-gone")]]
           [EndTag "li"]
           [("class", Some "pledge__radio"); ("id", Some "reward-42")]
           "pledge__radio"
           (set_description "" (set_in_li_block true
              (set_rewards [] (set_name None init))))).
  - reflexivity.
  - vm_compute. reflexivity.
  - reflexivity.
  - vm_compute. reflexivity.
  - vm_compute. reflexivity.
  - left. vm_compute. reflexivity.
Defined.

(** *** Pages without the all-gone marker *)

Section NoCandidate.

Variable cs : string -> string.

Lemma handle_no_candidate (self : KickstarterHTMLParser) (e : event) :
  in_li_block self = false ->
  in_desc_block self = false ->
  no_all_gone e = true ->
  li_class_valued e = true ->
  handle cs self e = Ok self.
Proof.
  intros Hli Hdesc Hgone Hval.
  destruct e as [tag attributes | tag | data]; simpl in *.
  - unfold handle_starttag. unfold class_of, all_gone in *.
    destruct (Py.dict attributes !! "class") as [[c|]|]; [| |reflexivity].
    + rewrite Hli. simpl. rewrite Hli. simpl.
      destruct (String.eqb tag "li"); simpl in *; [|reflexivity].
      destruct (Py.contains "pledge--all-gone" c); [discriminate | reflexivity].
    + rewrite Hli. simpl. rewrite Hli. simpl.
      destruct (String.eqb tag "li"); [discriminate | reflexivity].
  - unfold handle_endtag. rewrite Hli.
    destruct (String.eqb tag "li"), (String.eqb tag "h3"); simpl;
      try reflexivity; destruct self; simpl in *; subst; reflexivity.
  - unfold handle_data. rewrite Hdesc. reflexivity.
Qed.

Lemma feed_no_candidate (self : KickstarterHTMLParser) (events : list event) :
  in_li_block self = false ->
  in_desc_block self = false ->
  forallb no_all_gone events = true ->
  forallb li_class_valued events = true ->
  feed cs self events = Ok self.
Proof.
  intros Hli Hdesc. induction events as [|e events IH]; simpl; [reflexivity|].
  intros Hg Hv. apply andb_prop in Hg as [Hg Hgs]. apply andb_prop in Hv as [Hv Hvs].
  rewrite handle_no_candidate by assumption. simpl. now apply IH.
Qed.

End NoCandidate.

(** C7, as the spec has it, fails: the page [<li class>] has no occurrence
    of the marker class, and the extraction ends in [TypeError]; so does
    the script. *)
Lemma valueless_class_raises :
  process (Sample.world [Page None [StartTag "li" [("class", None)]]] "")
    init "http://k/p/pledge/new" []
  = (Throw TypeError, [Get "http://k/p/pledge/new"])
  /\ startup (Sample.world [Page None [StartTag "li" [("class", None)]]] "")
       1 2 ["http://k/p"] []
     = (Throw TypeError, [Get "http://k/p/pledge/new"]).
Proof. split; vm_compute; reflexivity. Qed.

(** *** The same page twice *)

Section Twice.

Variable cs : string -> string.

Lemma agrees_start (first later : KickstarterHTMLParser) (tag : string)
    (attributes : list (string * option string)) (first' : KickstarterHTMLParser) :
  agrees first later ->
  handle_starttag first tag attributes = Ok first' ->
  exists later',
    handle_starttag later tag attributes = Ok later' /\ agrees first' later'.
Proof.
  intros (Hli & Hdesc & Hr & Hv & Hi & Hd).
  unfold handle_starttag.
  destruct (Py.dict attributes !! "class") as [class|].
  2:{ intros [= <-]. exists later. unfold agrees. auto 10. }
  rewrite <- Hli.
  destruct first as [li1 de1 n1 r1 v1 i1 d1], later as [li2 de2 n2 r2 v2 i2 d2].
  unfold agrees. simpl in *. subst li2 de2 r2.
  destruct li1; simpl.
  - (* inside a candidate block: the descriptions are the same *)
    assert (d1 = d2) as <- by (destruct Hd as [[? _] | ?]; congruence).
    destruct class as [c|]; simpl; [|discriminate].
    destruct (Py.contains "pledge__title" c); simpl;
      (destruct (String.eqb tag "input"); simpl;
       [ destruct (Py.contains "pledge__radio" c); simpl;
         [ destruct (Py.getitem (Py.dict attributes) "title") as [[t|]|]; simpl;
           try discriminate;
           destruct (Py.getitem (Py.dict attributes) "id") as [i|]; simpl;
           try discriminate | ] | ]);
      (destruct (String.eqb tag "li"); simpl;
       [ destruct (Py.contains "pledge--all-gone" c); simpl | ]);
      intros [= <-]; eexists; (split; [reflexivity|]); simpl; auto 10.
  - (* outside: only the start of a candidate block matters *)
    destruct (String.eqb tag "li"); simpl.
    + destruct class as [c|]; simpl; [|discriminate].
      destruct (Py.contains "pledge--all-gone" c); simpl;
        intros [= <-]; eexists; (split; [reflexivity|]); simpl; auto 10.
    + intros [= <-]. eexists. split; [reflexivity|]. simpl. auto 10.
Qed.

Lemma agrees_end (first later : KickstarterHTMLParser) (tag : string)
    (first' : KickstarterHTMLParser) :
  agrees first later ->
  handle_endtag first tag = Ok first' ->
  exists later', handle_endtag later tag = Ok later' /\ agrees first' later'.
Proof.
  intros (Hli & Hdesc & Hr & Hv & Hi & Hd).
  unfold handle_endtag. rewrite <- Hli.
  destruct first as [li1 de1 n1 r1 v1 i1 d1], later as [li2 de2 n2 r2 v2 i2 d2].
  unfold agrees. simpl in *. subst li2 de2 r2.
  destruct (String.eqb tag "li"), li1; simpl.
  - destruct r1 as [rs|]; simpl; [|discriminate].
    destruct v1 as [v|]; simpl; [|discriminate].
    destruct i1 as [i|]; simpl; [|discriminate].
    destruct d1 as [d|]; simpl; [|discriminate].
    assert (v2 = Some v) as -> by (destruct Hv; congruence).
    assert (i2 = Some i) as -> by (destruct Hi; congruence).
    assert (d2 = Some d) as -> by (destruct Hd as [[? _] | ?]; congruence).
    simpl. intros [= <-]. eexists. split; [reflexivity|].
    destruct (String.eqb tag "h3"); simpl; auto 10.
  - intros [= <-]. eexists. split; [reflexivity|].
    destruct (String.eqb tag "h3"); simpl; intuition congruence.
  - intros [= <-]. eexists. split; [reflexivity|].
    destruct (String.eqb tag "h3"); simpl; intuition congruence.
  - intros [= <-]. eexists. split; [reflexivity|].
    destruct (String.eqb tag "h3"); simpl; intuition congruence.
Qed.

Lemma agrees_data (first later : KickstarterHTMLParser) (data : string)
    (first' : KickstarterHTMLParser) :
  agrees first later ->
  handle_data cs first data = Ok first' ->
  exists later', handle_data cs later data = Ok later' /\ agrees first' later'.
Proof.
  intros (Hli & Hdesc & Hr & Hv & Hi & Hd).
  unfold handle_data. rewrite <- Hdesc.
  destruct first as [li1 de1 n1 r1 v1 i1 d1], later as [li2 de2 n2 r2 v2 i2 d2].
  unfold agrees. simpl in *. subst li2 de2 r2.
  destruct de1; simpl.
  - destruct d1 as [d|]; simpl; [|discriminate].
    assert (d2 = Some d) as ->
      by (destruct Hd as [[_ ?] | ?]; [discriminate | congruence]).
    simpl. intros [= <-]. eexists. split; [reflexivity|]. simpl. auto 10.
  - intros [= <-]. eexists. split; [reflexivity|]. simpl. auto 10.
Qed.

Lemma agrees_feed (events : list event) (first later first' : KickstarterHTMLParser) :
  agrees first later ->
  feed cs first events = Ok first' ->
  exists later', feed cs later events = Ok later' /\ agrees first' later'.
Proof.
  revert first later. induction events as [|e events IH]; intros first later Ha; simpl.
  - intros [= <-]. exists later. auto.
  - destruct (handle cs first e) as [s1|] eqn:E1; simpl; [|discriminate].
    intros Hrest.
    assert (exists s2, handle cs later e = Ok s2 /\ agrees s1 s2) as (s2 & E2 & Ha2).
    { destruct e as [tag attributes | tag | data]; simpl in *.
      - eapply agrees_start; eassumption.
      - eapply agrees_end; eassumption.
      - eapply agrees_data; eassumption. }
    rewrite E2. simpl. eapply IH; eassumption.
Qed.

(** Feeding a page to a new parser, and then again to the parser it left
    outside any block. *)
Lemma parse_twice (title title' : option string) (events : list event)
    (first : KickstarterHTMLParser) (rs : list reward) :
  parse cs init title events = Ok (first, rs) ->
  in_li_block first = false ->
  in_desc_block first = false ->
  exists later, parse cs first title' events = Ok (later, rs).
Proof.
  unfold parse. intros Hp Hli Hdesc.
  destruct (feed cs (set_rewards [] (set_name title init)) events) as [s1|] eqn:E1;
    simpl in Hp; [|discriminate].
  destruct (rewards s1) as [rs1|] eqn:Er1; simpl in Hp; [|discriminate].
  injection Hp as -> ->.
  destruct (agrees_feed events (set_rewards [] (set_name title init))
              (set_rewards [] (set_name title' first)) first) as (s2 & E2 & Ha).
  - unfold agrees. simpl. rewrite Hli, Hdesc. auto 10.
  - exact E1.
  - rewrite E2. simpl. destruct Ha as (_ & _ & Hr & _). rewrite <- Hr, Er1. simpl.
    eauto.
Qed.

End Twice.

(** C6, as the spec has it, fails.  On [page_unclosed], whose sold-out
    block is not closed, the first call returns no reward and leaves the
    parser inside the block; the second call, on the same page, closes that
    block at the first [</li>] and returns one reward. *)
Lemma second_extraction_differs :
  exists first later : KickstarterHTMLParser,
    process (Sample.world [Page None page_unclosed; Page None page_unclosed] "")
      init "u" []
    = (Return (first, []), [Get "u"])
    /\ process (Sample.world [Page None page_unclosed; Page None page_unclosed] "")
         first "u" [Get "u"]
       = (Return (later, [("$50.00", Some "reward-B", "Shirt")]),
          [Get "u"; Get "u"]).
Proof. do 2 eexists. split; vm_compute; reflexivity. Qed.

(** ** The description of a record *)

Lemma spaceless_snoc (w : string) (c : ascii) :
  spaceless w = true -> Py.isspace c = false ->
  spaceless (w +:+ String c EmptyString) = true.
Proof.
  intros Hw Hc. induction w as [|x w IH].
  - change (negb (Py.isspace c) && true = true). now rewrite Hc.
  - change (negb (Py.isspace x) && spaceless (w +:+ String c EmptyString) = true).
    simpl in Hw. apply andb_prop in Hw as [Hx Hw]. rewrite Hx. simpl. now apply IH.
Qed.

(** Every word [split] returns is non-empty and free of whitespace. *)
Lemma split_from_words (s word : string) :
  spaceless word = true ->
  Forall (fun w => w ≠ "" /\ spaceless w = true) (Py.split_from word s).
Proof.
  revert word. induction s as [|c s IH]; intros word Hw; simpl.
  - destruct (String.eqb_spec word ""); [constructor|].
    constructor; [auto | constructor].
  - destruct (Py.isspace c) eqn:Ec.
    + destruct (String.eqb_spec word ""); simpl.
      * now apply IH.
      * constructor; [auto | now apply IH].
    + apply IH. now apply spaceless_snoc.
Qed.

Lemma collapsed_from_word (w rest : string) (b : bool) :
  w ≠ "" -> spaceless w = true ->
  collapsed_from b (w +:+ rest) = collapsed_from false rest.
Proof.
  revert b. induction w as [|x w IH]; intros b Hne Hw; [congruence|].
  simpl in Hw. apply andb_prop in Hw as [Hx Hw].
  change (collapsed_from b (String x (w +:+ rest)) = collapsed_from false rest).
  simpl. apply negb_true_iff in Hx. rewrite Hx.
  destruct w as [|y w]; [reflexivity|].
  apply IH; [discriminate | exact Hw].
Qed.

Lemma collapsed_from_join (words : list string) :
  words ≠ [] ->
  Forall (fun w => w ≠ "" /\ spaceless w = true) words ->
  collapsed_from true (Py.join " " words) = true.
Proof.
  induction words as [|w words IH]; intros Hne Hall; [congruence|].
  apply Forall_cons in Hall as [[Hw Hs] Hall].
  destruct words as [|w' words].
  - simpl. rewrite <- (string_app_nil_r w). now rewrite collapsed_from_word.
  - change (Py.join " " (w :: w' :: words))
      with (w +:+ " " +:+ Py.join " " (w' :: words)).
    rewrite collapsed_from_word by assumption.
    change (collapsed_from false (" " +:+ Py.join " " (w' :: words)))
      with (collapsed_from true (Py.join " " (w' :: words))).
    apply IH; [discriminate | exact Hall].
Qed.

(** X1.  The description of every record, [' '.join(d.split())], has
    whitespace only as single spaces between words: none at either end, no
    two in a row, no tab and no line break. *)
Theorem description_collapsed (d : string) :
  collapsed (Py.join " " (Py.split d)) = true.
Proof.
  pose proof (split_from_words d "" eq_refl) as Hall.
  unfold Py.split. destruct (Py.split_from "" d) as [|w words] eqn:E.
  - reflexivity.
  - assert (Hj : collapsed_from true (Py.join " " (w :: words)) = true)
      by (apply collapsed_from_join; [discriminate | exact Hall]).
    unfold collapsed. destruct (Py.join " " (w :: words)); [reflexivity | exact Hj].
Qed.

(** ** The loop and the start of the script when nothing goes wrong *)

(** X2.  A round in which every watched reward is still unavailable, and
    whose fetch and parse succeed, keeps the watch-set, replaces the
    unavailable-set by the fresh one, and does nothing but wait and fetch:
    no push, no exit. *)
Theorem quiet_round_keeps_watch_set (W : World) (o : options) (url : string)
    (st : loop_state) (h : history) (title : option string)
    (events : list event) (parser : KickstarterHTMLParser)
    (rewards : list reward) :
  existsb (became_available (latest st)) (selected st) = false ->
  0 <= delay o ->
  http_get W (h ++ waiting o) url = Page title events ->
  parse (charref_sub W) (ks st) title events = Ok (parser, rewards) ->
  cycle W o url st h
  = (Return (mkLoop parser (selected st) rewards), (h ++ waiting o) ++ [Get url]).
Proof.
  intros Hq Hd Hget Hparse.
  rewrite cycle_quiet_prefix by assumption.
  rewrite (bind_return _ _ _ ((h ++ waiting o) ++ [Get url]) (parser, rewards));
    [reflexivity|].
  rewrite (process_page W (ks st) url _ _ _ Hget), Hparse. reflexivity.
Qed.

Lemma quiet_round_keeps_watch_set_B :
  cycle (Sample.world [Sample.page_BC] "") (mkOptions 2 true) "u"
    (mkLoop init [Sample.B] [Sample.A; Sample.B]) []
  = (Return (mkLoop
               (mkParser false false (Some " Gadget ") (Some [Sample.B; Sample.C])
                  (Some "$75.00") (Some (Some "reward-C")) (Some "Poster"))
               [Sample.B] [Sample.B; Sample.C]),
     [Print "Waiting 2 minutes ..."; Sleep 120; Get "u"]).
Proof.
  refine (quiet_round_keeps_watch_set (Sample.world [Sample.page_BC] "")
            (mkOptions 2 true) "u" (mkLoop init [Sample.B] [Sample.A; Sample.B])
            [] (Some " Gadget ")
            (Sample.block "$50.00" "reward-B" "Shirt"
             ++ Sample.block "$75.00" "reward-C" "Poster")
            _ [Sample.B; Sample.C] _ _ _ _).
  - reflexivity.
  - simpl. lia.
  - reflexivity.
  - vm_compute. reflexivity.
Defined.

(** X3.  With no amount on the command line and a page with exactly one
    unavailable reward, the script selects it, announces it, sends the one
    confirmation push (the page title, stripped) and enters the loop with
    that reward as watch-set. *)
Theorem startup_single_candidate (W : World) (rounds argc : nat)
    (arg0 : string) (amounts : list string) (h : history)
    (title : option string) (events : list event)
    (parser : KickstarterHTMLParser) (r : reward) (t : string) :
  (argc <= 2)%nat ->
  http_get W h (pledge_url arg0) = Page title events ->
  parse (charref_sub W) init title events = Ok (parser, [r]) ->
  name parser = Some t ->
  http_post W
    (h ++ [Get (pledge_url arg0);
           Print "Automatically selecting the only limited award available:";
           Print (item0 r +:+ " " +:+ Py.take 74 (item2 r));
           Print (nl +:+ "Selected rewards:");
           Print (item2 r);
           Print (nl +:+ "Sending test push to make sure everything is OK")])
  = None ->
  startup W rounds argc (arg0 :: amounts) h
  = (Return (pledge_url arg0, mkLoop parser [r] [r]),
     h ++ [Get (pledge_url arg0);
           Print "Automatically selecting the only limited award available:";
           Print (item0 r +:+ " " +:+ Py.take 74 (item2 r));
           Print (nl +:+ "Selected rewards:");
           Print (item2 r);
           Print (nl +:+ "Sending test push to make sure everything is OK");
           Post ("Start watching: " +:+ Py.strip t) (pledge_url arg0);
           Print (nl +:+ "Watching...")]).
Proof.
  intros Hargc Hget Hparse Hname Hpost.
  unfold startup.
  assert (Hc : (2 <? Z.of_nat argc) = false) by lia.
  rewrite Hc.
  set (url := pledge_url arg0) in *.
  assert (P : process W init url h = (Return (parser, [r]), h ++ [Get url])).
  { rewrite (process_page W init url h _ _ Hget), Hparse. reflexivity. }
  rewrite (bind_return _ _ _ _ _ P).
  unfold pledge_menu, mbind, M_bind, print, emit, push_message, lift, mret, M_ret.
  simpl. rewrite Hname. simpl.
  repeat (rewrite <- app_assoc; simpl).
  rewrite Hpost. repeat (rewrite <- app_assoc; simpl). reflexivity.
Qed.

Lemma startup_single_candidate_shirt :
  startup (Sample.world [Sample.page_B] "") 1 2 ["http://k/p?ref=x"] []
  = (Return ("http://k/p/pledge/new",
             mkLoop
               (mkParser false false (Some " Gadget ") (Some [Sample.B])
                  (Some "$50.00") (Some (Some "reward-B")) (Some "Shirt"))
               [Sample.B] [Sample.B]),
     [Get "http://k/p/pledge/new";
      Print "Automatically selecting the only limited award available:";
      Print "$50.00 Shirt";
      Print (nl +:+ "Selected rewards:");
      Print "Shirt";
      Print (nl +:+ "Sending test push to make sure everything is OK");
      Post "Start watching: Gadget" "http://k/p/pledge/new";
      Print (nl +:+ "Watching...")]).
Proof.
  refine (startup_single_candidate (Sample.world [Sample.page_B] "") 1 2
            "http://k/p?ref=x" [] [] (Some " Gadget ")
            (Sample.block "$50.00" "reward-B" "Shirt") _ Sample.B " Gadget "
            _ _ _ _ _).
  - lia.
  - reflexivity.
  - vm_compute. reflexivity.
  - reflexivity.
  - reflexivity.
Defined.

(** ** What the watch loop never does *)

Section LoopInvariants.

Context (W : World).

(** A round without a transition, up to its sleep. *)
Lemma cycle_quiet_sleep (o : options) (url : string) (st : loop_state)
    (h : history) :
  existsb (became_available (latest st)) (selected st) = false ->
  cycle W o url st h
  = ((if verbose o
      then print ("Waiting " +:+ Py.str_of_int (delay o) +:+ " minutes ...")
      else mret tt);;
     sleep (60 * delay o);;
     '(ks', rewards') ← process W (ks st) url;
     mret (mkLoop ks' (selected st) rewards')) h.
Proof.
  intros Hq. unfold cycle.
  erewrite bind_return by (now apply scan_quiet). reflexivity.
Qed.

Lemma cycle_negative_delay (o : options) (url : string) (st : loop_state)
    (h : history) :
  existsb (became_available (latest st)) (selected st) = false ->
  delay o < 0 ->
  cycle W o url st h
  = (Throw ValueError,
     h ++ (if verbose o
           then [Print ("Waiting " +:+ Py.str_of_int (delay o) +:+ " minutes ...")]
           else [])).
Proof.
  intros Hq Hd. rewrite cycle_quiet_sleep by exact Hq.
  unfold sleep. assert (E : (60 * delay o <? 0) = true) by lia. rewrite E.
  destruct (verbose o); unfold mbind, M_bind, print, emit, throw, mret, M_ret; simpl.
  - reflexivity.
  - rewrite app_nil_r. reflexivity.
Qed.

(** The four ways a round can go. *)
Lemma cycle_cases (o : options) (url : string) (st : loop_state) (h : history) :
  (exists t, cycle W o url st h = (Throw (NameError "string"), h ++ t)
             /\ forallb silent t = true)
  \/ (exists t, cycle W o url st h = (Throw ValueError, h ++ t)
                /\ forallb silent t = true)
  \/ (exists e t, cycle W o url st h = (Throw e, h ++ t)
                  /\ forallb silent t = true)
  \/ (exists parser rewards t,
        cycle W o url st h = (Return (mkLoop parser (selected st) rewards), h ++ t)
        /\ forallb silent t = true).
Proof.
  destruct (existsb (became_available (latest st)) (selected st)) eqn:Hq.
  - left. eexists. split; [now apply cycle_transition | reflexivity].
  - destruct (Z_lt_dec (delay o) 0) as [Hd | Hd].
    + right. left. eexists. split; [now apply cycle_negative_delay|].
      destruct (verbose o); reflexivity.
    + right. right.
      rewrite cycle_quiet_prefix by (assumption || lia).
      assert (Hw : forallb silent (waiting o ++ [Get url]) = true)
        by (unfold waiting; destruct (verbose o); reflexivity).
      destruct (http_get W (h ++ waiting o) url) as [e | title events] eqn:Hget.
      * left. exists e, (waiting o ++ [Get url]). split; [|exact Hw].
        rewrite app_assoc. apply bind_throw. apply process_fails. now left.
      * destruct (parse (charref_sub W) (ks st) title events) as [[p rs] | e] eqn:Hp.
        -- right. exists p, rs, (waiting o ++ [Get url]). split; [|exact Hw].
           rewrite app_assoc.
           rewrite (bind_return _ _ _ ((h ++ waiting o) ++ [Get url]) (p, rs));
             [reflexivity|].
           rewrite (process_page W (ks st) url _ _ _ Hget), Hp. reflexivity.
        -- left. exists e, (waiting o ++ [Get url]). split; [|exact Hw].
           rewrite app_assoc. apply bind_throw. apply process_fails.
           right. eauto.
Qed.

(** Any number of rounds: only silent effects, the same watch-set, no
    [sys.exit]. *)
Lemma cycles_outcome (n : nat) (o : options) (url : string)
    (st : loop_state) (h : history) :
  exists t : history,
    (cycles W n o url st h).2 = h ++ t
    /\ forallb silent t = true
    /\ match (cycles W n o url st h).1 with
       | Return st' => selected st' = selected st
       | Throw _ => True
       | SysExit _ | Pending => False
       end.
Proof.
  revert st h. induction n as [|n IH]; intros st h.
  - exists []. simpl. rewrite app_nil_r. auto.
  - simpl.
    destruct (cycle_cases o url st h)
      as [(t & E & Ht) | [(t & E & Ht) | [(e & t & E & Ht) | (p & rs & t & E & Ht)]]].
    + exists t. rewrite (bind_throw _ _ _ _ _ E). simpl. auto.
    + exists t. rewrite (bind_throw _ _ _ _ _ E). simpl. auto.
    + exists t. rewrite (bind_throw _ _ _ _ _ E). simpl. auto.
    + rewrite (bind_return _ _ _ _ _ E).
      destruct (IH (mkLoop p (selected st) rs) (h ++ t)) as (t' & E' & Ht' & Hout).
      exists (t ++ t'). rewrite E', app_assoc. split; [reflexivity|].
      split; [rewrite forallb_app, Ht, Ht'; reflexivity|].
      destruct (cycles W n o url (mkLoop p (selected st) rs) (h ++ t)).1;
        simpl in *; auto.
Qed.

End LoopInvariants.

(** X4.  Whatever the world does and however many rounds are observed, the
    watch loop sends no push and asks the user nothing, never changes the
    watch-set, and never ends in [sys.exit]: it is still running with the
    watch-set it started with, or it has ended in an exception. *)
Theorem watch_loop_never_acts (W : World) (n : nat) (o : options) (url : string)
    (st : loop_state) (h : history) :
  exists t : history,
    (cycles W n o url st h).2 = h ++ t
    /\ forallb silent t = true
    /\ match (cycles W n o url st h).1 with
       | Return st' => selected st' = selected st
       | Throw _ => True
       | SysExit _ | Pending => False
       end.
Proof.
  destruct (cycles_outcome W n o url st h) as (t & E & Ht & Hout).
  exists t. split; [exact E|]. split; [exact Ht | exact Hout].
Qed.

(** ** The start of the script: the ways it ends before the loop *)

Section StartupEnds.

Context (W : World).

Lemma in_pledges_not_number (price : string) (pledges : list string) :
  existsb (not_number W) pledges = true ->
  in_pledges W (PStr W price) pledges = Raise ValueError.
Proof.
  induction pledges as [|a rest IH]; simpl; [discriminate|].
  unfold not_number at 1, is_number. destruct (float W a); simpl.
  - exact IH.
  - reflexivity.
Qed.

Lemma select_pledges_not_number (r : reward) (rs : list reward)
    (pledges : list string) :
  existsb (not_number W) pledges = true ->
  select_pledges W (r :: rs) pledges = Raise ValueError.
Proof.
  intros H. simpl. rewrite in_pledges_not_number by exact H. reflexivity.
Qed.

Lemma process_returns (self parser : KickstarterHTMLParser) (url : string)
    (h : history) (title : option string) (events : list event)
    (rs : list reward) :
  http_get W h url = Page title events ->
  parse (charref_sub W) self title events = Ok (parser, rs) ->
  process W self url h = (Return (parser, rs), h ++ [Get url]).
Proof.
  intros Hget Hp. rewrite (process_page W self url h _ _ Hget), Hp. reflexivity.
Qed.

End StartupEnds.

(** X6.  As soon as the command line has more than two words
    ([len(sys.argv) > 2]: an amount, or just an option such as [-v]) the
    script never reaches its watch loop, whatever the page and the amounts
    are: it ends in [sys.exit] or in an exception, without a push and
    without a question to the user. *)
Theorem extra_argument_never_watches (W : World) (rounds argc : nat)
    (args : list string) (h : history) :
  (2 < argc)%nat ->
  ended (startup W rounds argc args h).1 = true
  /\ exists t : history,
       (startup W rounds argc args h).2 = h ++ t /\ forallb silent t = true.
Proof.
  intros Hargc. unfold startup.
  destruct args as [|arg0 amounts].
  { split; [reflexivity|]. exists []. simpl. rewrite app_nil_r. auto. }
  assert (Hc : (2 <? Z.of_nat argc) = true) by lia.
  rewrite Hc. set (url := pledge_url arg0).
  destruct (http_get W h url) as [e | title events] eqn:Hget.
  { erewrite bind_throw by (apply process_fails; left; exact Hget).
    split; [reflexivity|]. exists [Get url]. auto. }
  destruct (parse (charref_sub W) init title events) as [[p rs] | e] eqn:Hp.
  2:{ erewrite bind_throw by (apply process_fails; right; eauto).
      split; [reflexivity|]. exists [Get url]. auto. }
  rewrite (bind_return _ _ _ _ _ (process_returns W init p url h _ _ rs Hget Hp)).
  destruct (bool_decide (rs = [])) eqn:Hr.
  { unfold mbind, M_bind, print, emit, sys_exit. simpl.
    split; [reflexivity|]. eexists. rewrite <- app_assoc. split; reflexivity. }
  unfold mbind at 1, M_bind at 1. simpl.
  unfold mbind at 1, M_bind at 1.
  destruct (select_pledges_nothing W rs amounts) as [E | E]; rewrite E; simpl.
  - unfold mbind, M_bind, print, emit, sys_exit. simpl.
    split; [reflexivity|]. eexists. rewrite <- app_assoc. split; reflexivity.
  - split; [reflexivity|]. exists [Get url]. auto.
Qed.

Lemma extra_argument_never_watches_verbose :
  ended (startup (Sample.world [Sample.page_BC] "1") 3 3 ["http://k/p"] []).1 = true
  /\ exists t : history,
       (startup (Sample.world [Sample.page_BC] "1") 3 3 ["http://k/p"] []).2 = [] ++ t
       /\ forallb silent t = true.
Proof.
  apply (extra_argument_never_watches (Sample.world [Sample.page_BC] "1") 3 3
           ["http://k/p"] []).
  lia.
Defined.

(** X7.  An amount that [float] rejects ends the script in [ValueError],
    but only once the page is known to have unavailable rewards: the
    amounts are converted while the rewards are filtered, after the
    request. *)
Theorem amount_not_a_number_raises (W : World) (rounds argc : nat)
    (arg0 : string) (amounts : list string) (h : history)
    (title : option string) (events : list event)
    (parser : KickstarterHTMLParser) (rewards : list reward) :
  (2 < argc)%nat ->
  http_get W h (pledge_url arg0) = Page title events ->
  parse (charref_sub W) init title events = Ok (parser, rewards) ->
  bool_decide (rewards = []) = false ->
  existsb (not_number W) amounts = true ->
  startup W rounds argc (arg0 :: amounts) h
  = (Throw ValueError, h ++ [Get (pledge_url arg0)]).
Proof.
  intros Hargc Hget Hparse Hr Hnum. unfold startup.
  assert (Hc : (2 <? Z.of_nat argc) = true) by lia.
  rewrite Hc.
  rewrite (bind_return _ _ _ _ _
             (process_returns W init parser _ h _ _ rewards Hget Hparse)).
  rewrite Hr.
  destruct rewards as [|r rs]; [discriminate|].
  unfold mbind at 1, M_bind at 1. simpl.
  unfold mbind at 1, M_bind at 1.
  rewrite in_pledges_not_number by exact Hnum. reflexivity.
Qed.

Lemma amount_not_a_number_raises_dollar :
  startup (Sample.world [Sample.page_BC] "") 1 4
    ["http://k/p?ref=x"; "50"; "$75.00"] []
  = (Throw ValueError, [Get "http://k/p/pledge/new"]).
Proof.
  refine (amount_not_a_number_raises (Sample.world [Sample.page_BC] "") 1 4
            "http://k/p?ref=x" ["50"; "$75.00"] [] (Some " Gadget ") _ _
            [Sample.B; Sample.C] _ _ _ _ _).
  - lia.
  - reflexivity.
  - vm_compute. reflexivity.
  - reflexivity.
  - reflexivity.
Defined.

(** X8.  On a page without a [<title>], the script selects and prints as
    usual and then ends in [AttributeError] at [ks.name.strip()]: the
    confirmation push is not sent and the loop is not entered. *)
Theorem page_without_title_raises (W : World) (rounds argc : nat)
    (arg0 : string) (amounts : list string) (h : history)
    (title : option string) (events : list event)
    (parser : KickstarterHTMLParser) (r : reward) :
  (argc <= 2)%nat ->
  http_get W h (pledge_url arg0) = Page title events ->
  parse (charref_sub W) init title events = Ok (parser, [r]) ->
  name parser = None ->
  startup W rounds argc (arg0 :: amounts) h
  = (Throw (AttributeError "strip"),
     h ++ [Get (pledge_url arg0);
           Print "Automatically selecting the only limited award available:";
           Print (item0 r +:+ " " +:+ Py.take 74 (item2 r));
           Print (nl +:+ "Selected rewards:");
           Print (item2 r);
           Print (nl +:+ "Sending test push to make sure everything is OK")]).
Proof.
  intros Hargc Hget Hparse Hname. unfold startup.
  assert (Hc : (2 <? Z.of_nat argc) = false) by lia.
  rewrite Hc.
  rewrite (bind_return _ _ _ _ _
             (process_returns W init parser _ h _ _ [r] Hget Hparse)).
  unfold pledge_menu, mbind, M_bind, print, emit, push_message, lift, mret, M_ret.
  simpl. rewrite Hname. simpl.
  repeat (rewrite <- app_assoc; simpl). reflexivity.
Qed.

Lemma page_without_title_raises_shirt :
  startup
    (Sample.world [Page None (Sample.block "$50.00" "reward-B" "Shirt")] "")
    1 2 ["http://k/p"] []
  = (Throw (AttributeError "strip"),
     [Get "http://k/p/pledge/new";
      Print "Automatically selecting the only limited award available:";
      Print "$50.00 Shirt";
      Print (nl +:+ "Selected rewards:");
      Print "Shirt";
      Print (nl +:+ "Sending test push to make sure everything is OK")]).
Proof.
  refine (page_without_title_raises
            (Sample.world [Page None (Sample.block "$50.00" "reward-B" "Shirt")] "")
            1 2 "http://k/p" [] [] None
            (Sample.block "$50.00" "reward-B" "Shirt") _ Sample.B _ _ _ _).
  - lia.
  - reflexivity.
  - vm_compute. reflexivity.
  - reflexivity.
Defined.

(** X9.  When the push service fails on the confirmation push, the
    exception ends the script there: 'Watching...' is not printed and no
    round of the loop runs. *)
Theorem confirmation_push_failure_ends_script (W : World) (rounds n argc : nat)
    (o : options) (arg0 : string) (amounts : list string) (h : history)
    (title : option string) (events : list event)
    (parser : KickstarterHTMLParser) (r : reward) (t : string) (e : exn) :
  (argc <= 2)%nat ->
  http_get W h (pledge_url arg0) = Page title events ->
  parse (charref_sub W) init title events = Ok (parser, [r]) ->
  name parser = Some t ->
  http_post W
    (h ++ [Get (pledge_url arg0);
           Print "Automatically selecting the only limited award available:";
           Print (item0 r +:+ " " +:+ Py.take 74 (item2 r));
           Print (nl +:+ "Selected rewards:");
           Print (item2 r);
           Print (nl +:+ "Sending test push to make sure everything is OK")])
  = Some e ->
  script W rounds n o argc (arg0 :: amounts) h
  = (Throw e,
     h ++ [Get (pledge_url arg0);
           Print "Automatically selecting the only limited award available:";
           Print (item0 r +:+ " " +:+ Py.take 74 (item2 r));
           Print (nl +:+ "Selected rewards:");
           Print (item2 r);
           Print (nl +:+ "Sending test push to make sure everything is OK");
           Post ("Start watching: " +:+ Py.strip t) (pledge_url arg0)]).
Proof.
  intros Hargc Hget Hparse Hname Hpost. unfold script.
  apply bind_throw. unfold startup.
  assert (Hc : (2 <? Z.of_nat argc) = false) by lia.
  rewrite Hc.
  rewrite (bind_return _ _ _ _ _
             (process_returns W init parser _ h _ _ [r] Hget Hparse)).
  unfold pledge_menu, mbind, M_bind, print, emit, push_message, lift, mret, M_ret.
  simpl. rewrite Hname. simpl.
  repeat (rewrite <- app_assoc; simpl).
  rewrite Hpost. repeat (rewrite <- app_assoc; simpl). reflexivity.
Qed.

Lemma confirmation_push_failure_ends_script_shirt :
  script (with_push_failure (Sample.world [Sample.page_B; Sample.page_B] "") RequestError)
    1 5 (mkOptions 1 false) 2 ["http://k/p?ref=x"] []
  = (Throw RequestError,
     [Get "http://k/p/pledge/new";
      Print "Automatically selecting the only limited award available:";
      Print "$50.00 Shirt";
      Print (nl +:+ "Selected rewards:");
      Print "Shirt";
      Print (nl +:+ "Sending test push to make sure everything is OK");
      Post "Start watching: Gadget" "http://k/p/pledge/new"]).
Proof.
  refine (confirmation_push_failure_ends_script
            (with_push_failure (Sample.world [Sample.page_B; Sample.page_B] "")
               RequestError)
            1 5 2 (mkOptions 1 false) "http://k/p?ref=x" [] [] (Some " Gadget ")
            (Sample.block "$50.00" "reward-B" "Shirt") _ Sample.B " Gadget "
            RequestError _ _ _ _ _).
  - lia.
  - reflexivity.
  - vm_compute. reflexivity.
  - reflexivity.
  - reflexivity.
Defined.

(** ** The push that is never sent *)

Section Emits.

Variable P : effect -> bool.










End Emits.

Section NoAlert.

Context (W : World).









End NoAlert.


(** ** Pages with several sold-out tiers *)

Section Tiers.

Variable cs : string -> string.

Lemma feed_tier (self : KickstarterHTMLParser) (rs : list reward) (t : tier) :
  in_li_block self = false ->
  in_desc_block self = false ->
  rewards self = Some rs ->
  well_formed t = true ->
  exists self',
    feed cs self (tier_events t) = Ok self'
    /\ rewards self' = Some (rs ++ [record_of cs t])
    /\ in_li_block self' = false /\ in_desc_block self' = false.
Proof.
  intros Hli Hdesc Hrs Hwf. unfold well_formed in Hwf.
  repeat (apply andb_prop in Hwf as [Hwf ?]).
  destruct (class_of (li_attrs t)) as [[cl|]|] eqn:Ecl; try discriminate.
  destruct (class_of (input_attrs t)) as [[ci|]|] eqn:Eci; try discriminate.
  destruct (Py.dict (input_attrs t) !! "title") as [[price|]|] eqn:Eprice;
    try discriminate.
  destruct (Py.dict (input_attrs t) !! "id") as [id|] eqn:Eid; try discriminate.
  destruct (class_of (h3_attrs t)) as [[ch|]|] eqn:Ech; try discriminate.
  match goal with H : _ && negb _ = true |- _ => apply andb_prop in H as [Hradio Hnt] end.
  apply negb_true_iff in Hnt.
  unfold tier_events.
  erewrite feed_app_ok by (apply feed_no_candidate; eassumption).
  unfold record_of. rewrite Eprice, Eid.
  eapply feed_single_block; eassumption.
Qed.

Lemma feed_tiers (tiers : list tier) (self : KickstarterHTMLParser)
    (rs : list reward) :
  in_li_block self = false ->
  in_desc_block self = false ->
  rewards self = Some rs ->
  forallb well_formed tiers = true ->
  exists self',
    feed cs self (concat (map tier_events tiers)) = Ok self'
    /\ rewards self' = Some (rs ++ map (record_of cs) tiers)
    /\ in_li_block self' = false /\ in_desc_block self' = false.
Proof.
  revert self rs. induction tiers as [|t tiers IH]; intros self rs Hli Hdesc Hrs Hwf.
  - exists self. simpl. rewrite app_nil_r. auto.
  - simpl in Hwf. apply andb_prop in Hwf as [Ht Hts].
    destruct (feed_tier self rs t Hli Hdesc Hrs Ht) as (s1 & E1 & Hr1 & Hli1 & Hd1).
    destruct (IH s1 (rs ++ [record_of cs t]) Hli1 Hd1 Hr1 Hts)
      as (s2 & E2 & Hr2 & Hli2 & Hd2).
    exists s2. simpl. rewrite (feed_app_ok cs self s1 _ _ E1), E2.
    rewrite Hr2, <- app_assoc. auto.
Qed.

(** [handle] only ever appends to the list of rewards, and only at
    [</li>]. *)
Lemma handle_appends (self self' : KickstarterHTMLParser) (e : event)
    (rs : list reward) :
  handle cs self e = Ok self' ->
  rewards self = Some rs ->
  exists new,
    rewards self' = Some (rs ++ new)
    /\ (length new <= end_li_count [e])%nat.
Proof.
  intros H Hrs. destruct e as [tag attributes | tag | data]; simpl in H.
  - exists []. rewrite app_nil_r. split; [|simpl; lia].
    unfold handle_starttag, mbind, result_bind, Py.str_in, Py.getitem, getattr in H.
    repeat (case_match; try discriminate); simplify_eq; simpl; assumption.
  - unfold handle_endtag, mbind, result_bind, getattr in H. rewrite Hrs in H.
    destruct (String.eqb tag "li") eqn:Etag.
    + destruct (in_li_block self).
      * repeat (case_match; try discriminate); simplify_eq; simpl;
          (eexists; split; [reflexivity | simpl; rewrite ?Etag; simpl; lia]).
      * exists []. rewrite app_nil_r. split; [|simpl; lia].
        repeat (case_match; try discriminate); simplify_eq; simpl; assumption.
    + exists []. rewrite app_nil_r. split; [|simpl; lia].
      repeat (case_match; try discriminate); simplify_eq; simpl; assumption.
  - exists []. rewrite app_nil_r. split; [|simpl; lia].
    unfold handle_data, mbind, result_bind, getattr in H.
    repeat (case_match; try discriminate); simplify_eq; simpl; assumption.
Qed.

Lemma feed_appends (events : list event) (self self' : KickstarterHTMLParser)
    (rs : list reward) :
  feed cs self events = Ok self' ->
  rewards self = Some rs ->
  exists new,
    rewards self' = Some (rs ++ new)
    /\ (length new <= end_li_count events)%nat.
Proof.
  revert self rs. induction events as [|e events IH]; intros self rs H Hrs.
  - simpl in H. injection H as <-. exists []. rewrite app_nil_r. split; [exact Hrs|].
    simpl. lia.
  - simpl in H. destruct (handle cs self e) as [s1|] eqn:E1; simpl in H; [|discriminate].
    destruct (handle_appends self s1 e rs E1 Hrs) as (new1 & Hr1 & Hn1).
    destruct (IH s1 _ H Hr1) as (new2 & Hr2 & Hn2).
    exists (new1 ++ new2). rewrite Hr2, <- app_assoc. split; [reflexivity|].
    rewrite length_app.
    assert (end_li_count (e :: events) = (end_li_count [e] + end_li_count events)%nat).
    { destruct e as [tag attributes | tag | data]; simpl; lia. }
    lia.
Qed.

End Tiers.

(** X11.  A page on which sold-out tiers follow one another, each of them
    well formed and preceded by any material without a candidate block
    (available tiers with their own selector controls, for one), gives on a
    new parser exactly one record per sold-out tier, in the order of the
    page. *)
Theorem extract_tiers_in_order (W : World) (url : string) (h : history)
    (title : option string) (tiers : list tier) (trailer : list event) :
  http_get W h url = Page title (concat (map tier_events tiers) ++ trailer) ->
  forallb well_formed tiers = true ->
  forallb no_all_gone trailer = true ->
  forallb li_class_valued trailer = true ->
  exists self' : KickstarterHTMLParser,
    process W init url h
    = (Return (self', map (record_of (charref_sub W)) tiers), h ++ [Get url]).
Proof.
  intros Hget Hwf Hg Hv.
  destruct (feed_tiers (charref_sub W) tiers (set_rewards [] (set_name title init)) [])
    as (s1 & E1 & Hr1 & Hli1 & Hd1); try reflexivity; try exact Hwf.
  exists s1. apply process_returns with (title := title)
    (events := concat (map tier_events tiers) ++ trailer); [exact Hget|].
  unfold parse. rewrite (feed_app_ok _ _ s1 _ _ E1).
  rewrite feed_no_candidate by assumption. simpl. rewrite Hr1. reflexivity.
Qed.

Lemma extract_tiers_in_order_two :
  exists self' : KickstarterHTMLParser,
    process
      (Sample.world
         [Page None
            ([ StartTag "ul" [];
               StartTag "li" [("class", Some "pledge pledge--available")];
               StartTag "input" [("class", Some "pledge__radio");
                                 ("title", Some "$10.00"); ("id", Some "reward-A")];
               EndTag "li" ]
             ++ Sample.block "$50.00" "reward-B" "Shirt"
             ++ Sample.block "$75.00" "reward-C" "Poster"
             ++ [EndTag "ul"])] "")
      init "u" []
    = (Return (self', [Sample.B; Sample.C]), [Get "u"]).
Proof.
  apply (extract_tiers_in_order
           (Sample.world
              [Page None
                 ([ StartTag "ul" [];
                    StartTag "li" [("class", Some "pledge pledge--available")];
                    StartTag "input" [("class", Some "pledge__radio");
                                      ("title", Some "$10.00"); ("id", Some "reward-A")];
                    EndTag "li" ]
                  ++ Sample.block "$50.00" "reward-B" "Shirt"
                  ++ Sample.block "$75.00" "reward-C" "Poster"
                  ++ [EndTag "ul"])] "")
           "u" [] None
           [ mkTier
               [ StartTag "ul" [];
                 StartTag "li" [("class", Some "pledge pledge--available")];
                 StartTag "input" [("class", Some "pledge__radio");
                                   ("title", Some "$10.00"); ("id", Some "reward-A")];
                 EndTag "li" ]
               [("class", Some "pledge pledge--all-gone")]
               [("class", Some "pledge__radio"); ("title", Some "$50.00");
                ("id", Some "reward-B")]
               [("class", Some "pledge__title")]
               [] [EndTag "input"] [Data "Shirt"] [];
             mkTier []
               [("class", Some "pledge pledge--all-gone")]
               [("class", Some "pledge__radio"); ("title", Some "$75.00");
                ("id", Some "reward-C")]
               [("class", Some "pledge__title")]
               [] [EndTag "input"] [Data "Poster"] [] ]
           [EndTag "ul"]); vm_compute; reflexivity.
Defined.

(** X12.  [process] returns at most one record per [</li>] of the page, and
    the list it returns is the one [result] gives afterwards. *)
Theorem records_bounded_by_end_tags (W : World) (self self' : KickstarterHTMLParser)
    (url : string) (h h' : history) (title : option string)
    (events : list event) (rs : list reward) :
  http_get W h url = Page title events ->
  process W self url h = (Return (self', rs), h') ->
  (length rs <= end_li_count events)%nat
  /\ result_method self' = Ok rs.
Proof.
  intros Hget Hp. rewrite (process_page W self url h _ _ Hget) in Hp.
  unfold parse in Hp.
  destruct (feed (charref_sub W) (set_rewards [] (set_name title self)) events)
    as [s1|] eqn:E1; simpl in Hp; [|discriminate].
  destruct (rewards s1) as [rs1|] eqn:Er1; simpl in Hp; [|discriminate].
  injection Hp as -> -> _.
  destruct (feed_appends (charref_sub W) events _ _ [] E1 eq_refl) as (new & Hr & Hn).
  simpl in Hr. rewrite Er1 in Hr. injection Hr as ->.
  split; [exact Hn|]. unfold result_method. rewrite Er1. reflexivity.
Qed.

Lemma records_bounded_by_end_tags_unclosed :
  (length ([] : list reward) <= end_li_count page_unclosed)%nat
  /\ result_method
       (mkParser true false None (Some []) (Some "$50.00")
          (Some (Some "reward-B")) (Some "Shirt"))
     = Ok [].
Proof.
  refine (records_bounded_by_end_tags
            (Sample.world [Page None page_unclosed] "") init
            (mkParser true false None (Some []) (Some "$50.00")
               (Some (Some "reward-B")) (Some "Shirt"))
            "u" [] [Get "u"] None page_unclosed [] _ _).
  - reflexivity.
  - vm_compute. reflexivity.
Defined.

(** ** Only ASCII in prices and descriptions *)

Lemma is_ascii_app (a b : string) :
  is_ascii (a +:+ b) = is_ascii a && is_ascii b.
Proof.
  induction a as [|x a IH]; [reflexivity|].
  change (is_ascii (String x (a +:+ b)) = is_ascii (String x a) && is_ascii b).
  simpl. rewrite IH. now rewrite andb_assoc.
Qed.

Lemma is_ascii_ignore (s : string) : is_ascii (Py.ascii_ignore s) = true.
Proof.
  induction s as [|c s IH]; simpl; [reflexivity|].
  destruct (Z.of_nat (nat_of_ascii c) <? 128) eqn:E; simpl; [rewrite E|]; exact IH.
Qed.

Lemma split_from_ascii (s word : string) :
  is_ascii word = true -> is_ascii s = true ->
  forallb is_ascii (Py.split_from word s) = true.
Proof.
  revert word. induction s as [|c s IH]; intros word Hw Hs; simpl.
  - destruct (String.eqb word ""); simpl; [reflexivity | now rewrite Hw].
  - simpl in Hs. apply andb_prop in Hs as [Hc Hs].
    destruct (Py.isspace c).
    + rewrite forallb_app, (IH "" eq_refl Hs).
      destruct (String.eqb word ""); simpl; [reflexivity | now rewrite Hw].
    + apply IH; [|exact Hs]. rewrite is_ascii_app, Hw. simpl. now rewrite Hc.
Qed.

Lemma join_ascii (words : list string) :
  forallb is_ascii words = true -> is_ascii (Py.join " " words) = true.
Proof.
  induction words as [|w words IH]; simpl; [reflexivity|].
  intros H. apply andb_prop in H as [Hw Hws].
  destruct words as [|w' words]; [exact Hw|].
  rewrite !is_ascii_app, Hw, (IH Hws). reflexivity.
Qed.

Lemma normalized_ascii (d : string) :
  is_ascii d = true -> is_ascii (Py.join " " (Py.split d)) = true.
Proof. intros H. apply join_ascii. now apply split_from_ascii. Qed.

Section Ascii.

Variable cs : string -> string.

Lemma handle_ascii (self self' : KickstarterHTMLParser) (e : event) :
  handle cs self e = Ok self' ->
  ascii_parser self = true ->
  ascii_parser self' = true.
Proof.
  intros H Ha. destruct self as [li de n r v i d]. unfold ascii_parser in Ha.
  simpl in Ha. apply andb_prop in Ha as [Ha Hr]. apply andb_prop in Ha as [Hv Hd].
  destruct self' as [li' de' n' r' v' i' d']. unfold ascii_parser. simpl.
  destruct e as [tag attributes | tag | data]; simpl in H.
  - unfold handle_starttag, mbind, result_bind, Py.str_in, Py.getitem, getattr in H.
    simpl in H.
    repeat (case_match; try discriminate); simplify_eq; simpl in *; simplify_eq;
      rewrite ?is_ascii_ignore, ?Hv, ?Hd, ?Hr; reflexivity.
  - unfold handle_endtag, mbind, result_bind, getattr in H. simpl in H.
    repeat (case_match; try discriminate); simplify_eq; simpl in *; simplify_eq;
      rewrite ?forallb_app; simpl;
      repeat (apply andb_true_intro; split);
      first [ reflexivity | assumption | apply normalized_ascii; assumption ].
  - unfold handle_data, mbind, result_bind, getattr in H. simpl in H.
    repeat (case_match; try discriminate); simplify_eq; simpl in *; simplify_eq;
      rewrite ?is_ascii_app, ?is_ascii_ignore, ?Hv, ?Hd, ?Hr; reflexivity.
Qed.

Lemma feed_ascii (events : list event) (self self' : KickstarterHTMLParser) :
  feed cs self events = Ok self' ->
  ascii_parser self = true ->
  ascii_parser self' = true.
Proof.
  revert self. induction events as [|e events IH]; intros self H Ha; simpl in H.
  - now injection H as <-.
  - destruct (handle cs self e) as [s1|] eqn:E1; simpl in H; [|discriminate].
    eapply IH; [exact H|]. eapply handle_ascii; eassumption.
Qed.

End Ascii.

(** X13.  The price and the description of every record [process] returns
    hold ASCII characters only, whatever the page contains, on the new
    parser and on every parser a successful [process] left behind (the
    identifier is not filtered). *)
Theorem records_are_ascii (W : World) (self self' : KickstarterHTMLParser)
    (url : string) (h h' : history) (rs : list reward) :
  ascii_parser self = true ->
  process W self url h = (Return (self', rs), h') ->
  forallb ascii_reward rs = true /\ ascii_parser self' = true.
Proof.
  intros Ha Hp. unfold process, requests_get, mbind at 1, M_bind at 1 in Hp.
  destruct (http_get W h url) as [e | title events]; [discriminate|].
  simpl in Hp. unfold parse in Hp.
  destruct (feed (charref_sub W) (set_rewards [] (set_name title self)) events)
    as [s1|] eqn:E1; simpl in Hp; [|discriminate].
  destruct (rewards s1) as [rs1|] eqn:Er1; simpl in Hp; [|discriminate].
  injection Hp as -> -> _.
  assert (H1 : ascii_parser self' = true).
  { eapply feed_ascii; [exact E1|].
    destruct self as [li de n r v i d]. unfold ascii_parser in *. simpl in *.
    apply andb_prop in Ha as [Ha _]. rewrite Ha. reflexivity. }
  split; [|exact H1].
  unfold ascii_parser in H1. rewrite Er1 in H1.
  apply andb_prop in H1 as [_ H1]. exact H1.
Qed.

Lemma records_are_ascii_pound :
  forallb ascii_reward [("75.00", Some "reward-C", "Caf menu")] = true
  /\ ascii_parser
       (mkParser false false None
          (Some [("75.00", Some "reward-C", "Caf menu")])
          (Some "75.00") (Some (Some "reward-C")) (Some "Caf  menu"))
     = true.
Proof.
  refine (records_are_ascii
            (Sample.world
               [Page None
                  (Sample.block (String (ascii_of_nat 163) "75.00") "reward-C"
                     ("Caf" +:+ String (ascii_of_nat 233) "  menu"))] "")
            init _ "u" [] [Get "u"] _ _ _).
  - reflexivity.
  - vm_compute. reflexivity.
Defined.

(** ** A block with two selector controls *)

(** X14.  When a candidate block holds two selector controls, the block
    still gives one record, and the record carries the title and the id
    of the second control: the later capture replaces the earlier one. *)
Theorem last_selector_wins (W : World) (url : string) (h : history)
    (title : option string)
    (li_attrs input1 input2 h3_attrs : list (string * option string))
    (cl c1 c2 ch price1 price2 : string) (id1 id2 : option string)
    (pre between mid body post : list event) :
  http_get W h url
  = Page title (double_block li_attrs input1 input2 h3_attrs
                  pre between mid body post) ->
  class_of li_attrs = Some (Some cl) ->
  Py.contains all_gone cl = true ->
  class_of input1 = Some (Some c1) ->
  Py.contains pledge_radio c1 = true ->
  Py.contains pledge_title c1 = false ->
  Py.dict input1 !! "title" = Some (Some price1) ->
  Py.dict input1 !! "id" = Some id1 ->
  class_of input2 = Some (Some c2) ->
  Py.contains pledge_radio c2 = true ->
  Py.contains pledge_title c2 = false ->
  Py.dict input2 !! "title" = Some (Some price2) ->
  Py.dict input2 !! "id" = Some id2 ->
  class_of h3_attrs = Some (Some ch) ->
  Py.contains pledge_title ch = true ->
  forallb inline (pre ++ between ++ mid ++ body ++ post) = true ->
  exists self' : KickstarterHTMLParser,
    process W init url h
    = (Return (self',
               [(Py.ascii_ignore price2, id2,
                 Py.join " " (Py.split (text_of (charref_sub W) body)))]),
       h ++ [Get url]).
Proof.
  intros Hget Hcl Hgone Hc1 Hr1 Hn1 Hp1 Hi1 Hc2 Hr2 Hn2 Hp2 Hi2 Hch Htitle Hin.
  rewrite !forallb_app in Hin.
  apply andb_prop in Hin as [Hpre Hin]. apply andb_prop in Hin as [Hbetween Hin].
  apply andb_prop in Hin as [Hmid Hin]. apply andb_prop in Hin as [Hbody Hpost].
  eexists. eapply process_returns; [exact Hget|].
  unfold parse, double_block.
  cbn [app feed handle]. erewrite start_candidate by (eassumption || reflexivity).
  cbn [mbind result_bind].
  erewrite feed_app_ok by (apply feed_inline_outside; [reflexivity | exact Hpre]).
  cbn [app feed handle]. erewrite start_selector by (eassumption || reflexivity).
  cbn [mbind result_bind].
  erewrite feed_app_ok by (apply feed_inline_outside; [reflexivity | exact Hbetween]).
  cbn [app feed handle]. erewrite start_selector by (eassumption || reflexivity).
  cbn [mbind result_bind].
  erewrite feed_app_ok by (apply feed_inline_outside; [reflexivity | exact Hmid]).
  cbn [app feed handle]. erewrite start_title by (eassumption || reflexivity).
  cbn [mbind result_bind].
  erewrite feed_app_ok
    by (apply (feed_inline_inside _ _ ""); [reflexivity | reflexivity | exact Hbody]).
  cbn [app feed handle]. rewrite end_title. cbn [mbind result_bind].
  erewrite feed_app_ok by (apply feed_inline_outside; [reflexivity | exact Hpost]).
  cbn [app feed handle].
  erewrite end_candidate by reflexivity.
  cbn [mbind result_bind]. reflexivity.
Qed.

Lemma last_selector_wins_two_inputs :
  exists self' : KickstarterHTMLParser,
    process
      (Sample.world
         [Page None
            [ StartTag "li" [("class", Some "pledge pledge--all-gone")];
              StartTag "input" [("class", Some "pledge__radio");
                                ("title", Some "$50.00"); ("id", Some "reward-B")];
              EndTag "input";
              StartTag "input" [("class", Some "pledge__radio");
                                ("title", Some "$75.00"); ("id", Some "reward-C")];
              EndTag "input";
              StartTag "h3" [("class", Some "pledge__title")];
              Data "Poster";
              EndTag "h3";
              EndTag "li" ]] "")
      init "u" []
    = (Return (self', [("$75.00", Some "reward-C", "Poster")]), [Get "u"]).
Proof.
  apply (last_selector_wins
           (Sample.world
              [Page None
                 (double_block [("class", Some "pledge pledge--all-gone")]
                    [("class", Some "pledge__radio"); ("title", Some "$50.00");
                     ("id", Some "reward-B")]
                    [("class", Some "pledge__radio"); ("title", Some "$75.00");
                     ("id", Some "reward-C")]
                    [("class", Some "pledge__title")]
                    [] [EndTag "input"] [EndTag "input"] [Data "Poster"] [])] "")
           "u" [] None
           [("class", Some "pledge pledge--all-gone")]
           [("class", Some "pledge__radio"); ("title", Some "$50.00");
            ("id", Some "reward-B")]
           [("class", Some "pledge__radio"); ("title", Some "$75.00");
            ("id", Some "reward-C")]
           [("class", Some "pledge__title")]
           "pledge pledge--all-gone" "pledge__radio" "pledge__radio" "pledge__title"
           "$50.00" "$75.00" (Some "reward-B") (Some "reward-C")
           [] [EndTag "input"] [EndTag "input"] [Data "Poster"] []);
    vm_compute; reflexivity.
Defined.

(** ** The URL that is polled *)

Lemma contains_qmark_cons (c : ascii) (u : string) :
  Py.contains "?" (String c u) = false ->
  Ascii.eqb c "?" = false /\ Py.contains "?" u = false.
Proof.
  simpl. intros H. apply orb_false_elim in H as [Hp Hc]. split; [|exact Hc].
  destruct (Ascii.eqb_spec c "?") as [-> | Hne]; [|reflexivity].
  exfalso. simpl in Hp.
  destruct (ascii_dec "?" "?"); [destruct u; discriminate | congruence].
Qed.

Lemma before_qmark_app (u rest : string) :
  Py.contains "?" u = false ->
  Py.before "?" (u +:+ String "?" rest) = u.
Proof.
  induction u as [|c u IH]; intros H.
  - reflexivity.
  - apply contains_qmark_cons in H as [Hc Hu].
    change (Py.before "?" (String c (u +:+ String "?" rest)) = String c u).
    simpl. rewrite Hc, (IH Hu). reflexivity.
Qed.

Lemma before_qmark_none (u : string) :
  Py.contains "?" u = false -> Py.before "?" u = u.
Proof.
  induction u as [|c u IH]; intros H; [reflexivity|].
  apply contains_qmark_cons in H as [Hc Hu].
  simpl. rewrite Hc, (IH Hu). reflexivity.
Qed.

(** X15.  The URL polled is the project URL up to its first [?], followed
    by [/pledge/new]: a query string, further question marks included, is
    dropped, and a URL without one is taken whole. *)
Theorem pledge_url_drops_query (u : string) :
  Py.contains "?" u = false ->
  pledge_url u = u +:+ "/pledge/new"
  /\ forall query : string,
       pledge_url (u +:+ String "?" query) = u +:+ "/pledge/new".
Proof.
  intros H. unfold pledge_url. split.
  - now rewrite before_qmark_none.
  - intros query. now rewrite before_qmark_app.
Qed.

Lemma pledge_url_drops_query_ref :
  pledge_url "http://k/p" = "http://k/p/pledge/new"
  /\ forall query : string,
       pledge_url ("http://k/p" +:+ String "?" query) = "http://k/p/pledge/new".
Proof.
  apply (pledge_url_drops_query "http://k/p"). reflexivity.
Defined.

(** ** The selection prompt *)

(** X16.  The prompt of [pledge_menu] cannot return: [raw_input] is not
    bound, the [NameError] is among the exceptions the loop itself
    catches, and the loop starts over.  However many rounds it is given,
    it has asked nothing and selected nothing. *)
Theorem prompt_never_returns (W : World) (rounds : nat)
    (rewards : list reward) (h : history) :
  prompt W rounds rewards h = (Pending, h).
Proof.
  revert h. induction rounds as [|n IH]; intros h; simpl; [reflexivity|].
  unfold try_except. rewrite raw_input_unbound. simpl. apply IH.
Qed.

Section Pick.

Context (W : World).

Lemma py_index_in_range {A : Type} (l : list A) (i : Z) :
  0 <= i < Z.of_nat (length l) ->
  exists a, l !! Z.to_nat i = Some a /\ py_index l i = Ok a.
Proof.
  intros Hi. unfold py_index.
  assert (E1 : (i <? 0) = false) by lia. rewrite E1.
  assert (E2 : (0 <=? i) && (i <? Z.of_nat (length l)) = true) by lia. rewrite E2.
  destruct (l !! Z.to_nat i) as [a|] eqn:E; [eauto|].
  apply lookup_ge_None in E. lia.
Qed.

End Pick.

(** X17.  The comprehension that reads the answer to the menu turns
    numbers between 1 and the number of rewards into the rewards at these
    places, in the order typed, repeats included. *)
Theorem pick_numbered_rewards (W : World) (rewards : list reward)
    (tokens : list string) :
  valid_answer W rewards tokens = true ->
  exists chosen : list reward,
    pick W rewards tokens = Ok chosen
    /\ mapM (numbered W rewards) tokens = Some chosen.
Proof.
  induction tokens as [|t ts IH]; intros H.
  - exists []. auto.
  - simpl in H. apply andb_prop in H as [Ht Hts].
    destruct (IH Hts) as (chosen & E & Em).
    destruct (int W t) as [i|] eqn:Hint; [|discriminate].
    destruct (py_index_in_range rewards (i - 1)) as (r & Hr & Ei); [lia|].
    exists (r :: chosen). split.
    + simpl. rewrite Hint. simpl. rewrite Ei. simpl. rewrite E. reflexivity.
    + assert (Hn : numbered W rewards t = Some r)
        by (unfold numbered; rewrite Hint; exact Hr).
      simpl. rewrite Hn. simpl. rewrite Em. reflexivity.
Qed.

Lemma pick_numbered_rewards_2_1_2 :
  exists chosen : list reward,
    pick (Sample.world [] "") [Sample.A; Sample.B; Sample.C] ["2"; "1"; "2"]
    = Ok chosen
    /\ mapM (numbered (Sample.world [] "") [Sample.A; Sample.B; Sample.C])
         ["2"; "1"; "2"]
       = Some chosen.
Proof.
  apply (pick_numbered_rewards (Sample.world [] "")
           [Sample.A; Sample.B; Sample.C] ["2"; "1"; "2"]).
  reflexivity.
Defined.

(** X18.  In that comprehension the number 0 and the negative numbers down
    to minus the number of rewards, plus one, raise no [IndexError]: [0]
    selects the last reward, [-1] the one before it, and so on. *)
Theorem pick_counts_from_the_end (W : World) (rewards : list reward)
    (t : string) (i : Z) (r : reward) :
  int W t = Some i ->
  i <= 0 ->
  reverse rewards !! Z.to_nat (- i) = Some r ->
  pick W rewards [t] = Ok [r].
Proof.
  intros Hint Hi Hr. simpl. rewrite Hint. simpl.
  pose proof (lookup_lt_Some _ _ _ Hr) as Hlen. rewrite length_reverse in Hlen.
  unfold py_index.
  assert (E1 : (i - 1 <? 0) = true) by lia. rewrite E1.
  assert (E2 : (0 <=? i - 1 + Z.of_nat (length rewards))
               && (i - 1 + Z.of_nat (length rewards) <? Z.of_nat (length rewards))
               = true) by lia.
  rewrite E2.
  rewrite reverse_lookup in Hr by lia.
  replace (Z.to_nat (i - 1 + Z.of_nat (length rewards)))
    with (length rewards - S (Z.to_nat (- i)))%nat by lia.
  rewrite Hr. reflexivity.
Qed.

Lemma pick_counts_from_the_end_zero :
  pick (Sample.world [] "") [Sample.A; Sample.B; Sample.C] ["0"] = Ok [Sample.C].
Proof.
  apply (pick_counts_from_the_end (Sample.world [] "")
           [Sample.A; Sample.B; Sample.C] "0" 0 Sample.C).
  - reflexivity.
  - lia.
  - reflexivity.
Defined.

(** ** Normalising a description twice *)

Lemma split_from_spaceless (w acc s : string) :
  spaceless w = true ->
  Py.split_from acc (w +:+ s) = Py.split_from (acc +:+ w) s.
Proof.
  revert acc. induction w as [|c w IH]; intros acc Hw.
  - now rewrite string_app_nil_r.
  - simpl in Hw. apply andb_prop in Hw as [Hc Hw]. apply negb_true_iff in Hc.
    change (Py.split_from acc (String c (w +:+ s))
            = Py.split_from (acc +:+ String c w) s).
    simpl. rewrite Hc, (IH _ Hw), string_app_assoc. reflexivity.
Qed.

Lemma split_join_words (words : list string) :
  Forall (fun w => w ≠ "" /\ spaceless w = true) words ->
  Py.split_from "" (Py.join " " words) = words.
Proof.
  induction words as [|w words IH]; intros Hall; [reflexivity|].
  apply Forall_cons in Hall as [[Hne Hw] Hall].
  assert (E : String.eqb w "" = false) by (now apply String.eqb_neq).
  destruct words as [|w' words].
  - simpl. rewrite <- (string_app_nil_r w) at 1.
    rewrite split_from_spaceless by exact Hw. change ("" +:+ w) with w.
    simpl. now rewrite E.
  - change (Py.join " " (w :: w' :: words))
      with (w +:+ String " " (Py.join " " (w' :: words))).
    rewrite split_from_spaceless by exact Hw. change ("" +:+ w) with w.
    simpl. rewrite E. simpl. f_equal. now apply IH.
Qed.

(** X19.  Normalising a description is idempotent: split into words and
    joined by single spaces, a description splits into the same words
    again, and normalising it once more changes nothing. *)
Theorem description_normal_form_stable (d : string) :
  Py.split (Py.join " " (Py.split d)) = Py.split d
  /\ Py.join " " (Py.split (Py.join " " (Py.split d))) = Py.join " " (Py.split d).
Proof.
  assert (E : Py.split (Py.join " " (Py.split d)) = Py.split d).
  { unfold Py.split. apply split_join_words. now apply split_from_words. }
  split; [exact E | now rewrite E].
Qed.

(** ** The loop while nothing changes *)

Section Steady.

Context (W : World).

Lemma parse_tiers (self : KickstarterHTMLParser) (title : option string)
    (tiers : list tier) (trailer : list event) :
  in_li_block self = false ->
  in_desc_block self = false ->
  forallb well_formed tiers = true ->
  forallb no_all_gone trailer = true ->
  forallb li_class_valued trailer = true ->
  exists self',
    parse (charref_sub W) self title (concat (map tier_events tiers) ++ trailer)
    = Ok (self', map (record_of (charref_sub W)) tiers)
    /\ in_li_block self' = false /\ in_desc_block self' = false.
Proof.
  intros Hli Hdesc Hwf Hg Hv.
  destruct (feed_tiers (charref_sub W) tiers (set_rewards [] (set_name title self)) [])
    as (s1 & E1 & Hr1 & Hli1 & Hd1); try assumption; try reflexivity.
  exists s1. unfold parse. rewrite (feed_app_ok _ _ s1 _ _ E1).
  rewrite feed_no_candidate by assumption. simpl. rewrite Hr1. auto.
Qed.

Lemma steady_rounds (n : nat) (o : options) (url : string)
    (title : option string) (tiers : list tier) (trailer : list event)
    (parser : KickstarterHTMLParser) (watched : list reward) (h : history) :
  (forall h' : history,
      http_get W h' url = Page title (concat (map tier_events tiers) ++ trailer)) ->
  forallb well_formed tiers = true ->
  forallb no_all_gone trailer = true ->
  forallb li_class_valued trailer = true ->
  0 <= delay o ->
  existsb (became_available (map (record_of (charref_sub W)) tiers)) watched = false ->
  in_li_block parser = false ->
  in_desc_block parser = false ->
  exists parser',
    cycles W n o url
      (mkLoop parser watched (map (record_of (charref_sub W)) tiers)) h
    = (Return (mkLoop parser' watched (map (record_of (charref_sub W)) tiers)),
       h ++ rounds_of n o url)
    /\ in_li_block parser' = false /\ in_desc_block parser' = false.
Proof.
  intros Hsite Hwf Hg Hv Hd Hq.
  revert parser h. induction n as [|n IH]; intros parser h Hli Hdesc.
  - exists parser. simpl. rewrite app_nil_r. auto.
  - destruct (parse_tiers parser title tiers trailer Hli Hdesc Hwf Hg Hv)
      as (p1 & Hp & Hli1 & Hd1).
    destruct (IH p1 ((h ++ waiting o) ++ [Get url]) Hli1 Hd1) as (p2 & E2 & Hli2 & Hd2).
    exists p2. split; [|auto].
    cbn [cycles].
    erewrite bind_return.
    + rewrite E2. cbn [rounds_of]. rewrite <- !app_assoc. reflexivity.
    + rewrite cycle_quiet_prefix by assumption.
      rewrite (bind_return _ _ _ ((h ++ waiting o) ++ [Get url])
                 (p1, map (record_of (charref_sub W)) tiers)); [reflexivity|].
      apply process_returns with (title := title)
        (events := concat (map tier_events tiers) ++ trailer); [apply Hsite | exact Hp].
Qed.

End Steady.

(** ** A title element that is not an [h3] *)

(** X21.  The title block starts at any tag of the title class but ends at
    [</h3>] only.  When the title element of a candidate block is not an
    [h3], its own end tag does not stop the collection: all the text up to
    [</li>] goes into the description, and the parser leaves the block
    still inside a title block. *)
Theorem title_ends_only_at_h3 (W : World) (url : string) (h : history)
    (title : option string)
    (li_attrs input_attrs title_attrs : list (string * option string))
    (cl ci ct price : string) (id : option string)
    (tag : string) (rest : list event) :
  http_get W h url
  = Page title (titled_block li_attrs input_attrs title_attrs tag rest) ->
  class_of li_attrs = Some (Some cl) ->
  Py.contains all_gone cl = true ->
  class_of input_attrs = Some (Some ci) ->
  Py.contains pledge_radio ci = true ->
  Py.contains pledge_title ci = false ->
  Py.dict input_attrs !! "title" = Some (Some price) ->
  Py.dict input_attrs !! "id" = Some id ->
  class_of title_attrs = Some (Some ct) ->
  Py.contains pledge_title ct = true ->
  String.eqb tag "input" = false ->
  String.eqb tag "li" = false ->
  forallb inline rest = true ->
  exists self' : KickstarterHTMLParser,
    process W init url h
    = (Return (self',
               [(Py.ascii_ignore price, id,
                 Py.join " " (Py.split (text_of (charref_sub W) rest)))]),
       h ++ [Get url])
    /\ in_desc_block self' = true.
Proof.
  intros Hget Hcl Hgone Hci Hradio Hnt Hprice Hid Hct Htitle Hti Htl Hrest.
  assert (Hstart : forall s, in_li_block s = true ->
            handle_starttag s tag title_attrs = Ok (set_in_desc_block true s)).
  { intros s Hs. unfold class_of, pledge_title in *. unfold handle_starttag.
    rewrite Hct, Hs. simpl. rewrite Htitle. simpl. rewrite Hs, Hti, Htl. reflexivity. }
  eexists. split.
  - eapply process_returns; [exact Hget|].
    unfold parse, titled_block.
    cbn [app feed handle]. erewrite start_candidate by (eassumption || reflexivity).
    cbn [mbind result_bind].
    erewrite start_selector by (eassumption || reflexivity).
    cbn [mbind result_bind].
    rewrite Hstart by reflexivity. cbn [mbind result_bind].
    erewrite feed_app_ok
      by (apply (feed_inline_inside _ _ ""); [reflexivity | reflexivity | exact Hrest]).
    cbn [app feed handle].
    erewrite end_candidate by reflexivity.
    cbn [mbind result_bind]. reflexivity.
  - reflexivity.
Qed.

Lemma title_ends_only_at_h3_div :
  exists self' : KickstarterHTMLParser,
    process
      (Sample.world
         [Page None
            [ StartTag "li" [("class", Some "pledge pledge--all-gone")];
              StartTag "input" [("class", Some "pledge__radio");
                                ("title", Some "$50.00"); ("id", Some "reward-B")];
              StartTag "div" [("class", Some "pledge__title")];
              Data "Shirt";
              EndTag "div";
              StartTag "p" [];
              Data " Ships in May ";
              EndTag "p";
              EndTag "li" ]] "")
      init "u" []
    = (Return (self', [("$50.00", Some "reward-B", "Shirt Ships in May")]),
       [Get "u"])
    /\ in_desc_block self' = true.
Proof.
  apply (title_ends_only_at_h3
           (Sample.world
              [Page None
                 (titled_block [("class", Some "pledge pledge--all-gone")]
                    [("class", Some "pledge__radio"); ("title", Some "$50.00");
                     ("id", Some "reward-B")]
                    [("class", Some "pledge__title")] "div"
                    [Data "Shirt"; EndTag "div"; StartTag "p" [];
                     Data " Ships in May "; EndTag "p"])] "")
           "u" [] None
           [("class", Some "pledge pledge--all-gone")]
           [("class", Some "pledge__radio"); ("title", Some "$50.00");
            ("id", Some "reward-B")]
           [("class", Some "pledge__title")]
           "pledge pledge--all-gone" "pledge__radio" "pledge__title" "$50.00"
           (Some "reward-B") "div"
           [Data "Shirt"; EndTag "div"; StartTag "p" []; Data " Ships in May ";
            EndTag "p"]); vm_compute; reflexivity.
Defined.

(** ** From the command line to an availability transition *)

(** [pledge_menu] returns on a single candidate only. *)
Lemma pledge_menu_returns (W : World) (rounds : nat) (rewards sel : list reward)
    (h h' : history) :
  pledge_menu W rounds rewards h = (Return sel, h') ->
  exists r, rewards = [r] /\ sel = [r].
Proof.
  destruct rewards as [|r [|r' rest]]; simpl.
  - rewrite xrange_unbound. discriminate.
  - unfold mbind, M_bind, print, emit, mret, M_ret. simpl. intros [= <- _]. eauto.
  - rewrite xrange_unbound. discriminate.
Qed.

(** The script reaches its loop only from a command line without amounts
    and options, and then with one watched reward, the only one of the
    page. *)
Lemma startup_returns (W : World) (rounds argc : nat) (args : list string)
    (h h1 : history) (url : string) (st : loop_state) :
  startup W rounds argc args h = (Return (url, st), h1) ->
  exists arg0 amounts r,
    args = arg0 :: amounts /\ (argc <= 2)%nat /\ url = pledge_url arg0
    /\ selected st = [r] /\ latest st = [r].
Proof.
  unfold startup. destruct args as [|arg0 amounts]; [discriminate|].
  intros H. exists arg0, amounts.
  apply bind_return_inv in H as ([p rs] & h2 & _ & H).
  apply bind_return_inv in H as ([] & h3 & _ & H).
  apply bind_return_inv in H as (sel & h4 & Hsel & H).
  apply bind_return_inv in H as ([] & h5 & Hne & H).
  apply bind_return_inv in H as ([] & h6 & _ & H).
  apply bind_return_inv in H as ([] & h7 & _ & H).
  apply bind_return_inv in H as ([] & h8 & _ & H).
  apply bind_return_inv in H as (t & h9 & _ & H).
  apply bind_return_inv in H as ([] & h10 & _ & H).
  apply bind_return_inv in H as ([] & h11 & _ & H).
  injection H as <- <- _.
  destruct (2 <? Z.of_nat argc) eqn:Hargc.
  - (* amounts on the command line select nothing *)
    destruct (select_pledges_nothing W rs amounts) as [E | E];
      rewrite E in Hsel; [|discriminate].
    injection Hsel as <- _. vm_compute in Hne. discriminate.
  - apply pledge_menu_returns in Hsel as (r & -> & ->).
    exists r. simpl. repeat split; lia.
Qed.

(** Rounds after rounds. *)
Lemma cycles_continue (W : World) (k m : nat) (o : options) (url : string)
    (st0 st : loop_state) (h1 h : history) :
  cycles W k o url st0 h1 = (Return st, h) ->
  cycles W (k + m) o url st0 h1 = cycles W m o url st h.
Proof.
  revert st0 h1. induction k as [|k IH]; intros st0 h1; simpl.
  - intros [= -> ->]. reflexivity.
  - intros H. apply bind_return_inv in H as (st1 & h2 & E & H).
    rewrite (bind_return _ _ _ _ _ E). now apply IH.
Qed.

(** C1.  The spec: with the watch-set {A, B} and a fresh unavailable-set
    {A, C}, the round announces B, sends one notification, removes B and
    leaves {A}; one transition per round.  The code: a run of the script
    never holds two watched rewards; it enters the loop with the single
    reward of the first page, and the rounds of the loop send nothing and
    leave the watch-set alone.  In whatever round that reward is missing
    from the fresh unavailable-set, the round prints the time-stamped line
    and ends the script in [NameError] on [print(string(s[2]))]: no
    notification is sent and nothing is removed. *)
Theorem transition_ends_script (W : World) (rounds k n argc : nat)
    (args : list string) (url : string) (st0 st : loop_state) (h1 h : history) :
  startup W rounds argc args [] = (Return (url, st0), h1) ->
  cycles W k default_options url st0 h1 = (Return st, h) ->
  existsb (became_available (latest st)) (selected st) = true ->
  exists (s : reward) (t : history),
    selected st0 = [s] /\ selected st = [s]
    /\ h = h1 ++ t /\ forallb silent t = true
    /\ script W rounds (k + S n) default_options argc args []
       = (Throw (NameError "string"),
          h ++ [Print (strftime W h +:+ " - Reward available!")]).
Proof.
  intros Hstart Hloop Hb.
  destruct (startup_returns W rounds argc args [] h1 url st0 Hstart)
    as (arg0 & amounts & s & _ & _ & _ & Hsel & _).
  destruct (cycles_outcome W k default_options url st0 h1) as (t & Ht & Hsilent & Hout).
  rewrite Hloop in Ht, Hout. simpl in Ht, Hout.
  exists s, t. split; [exact Hsel|]. split; [congruence|].
  split; [exact Ht|]. split; [exact Hsilent|].
  unfold script. rewrite (bind_return _ _ _ _ _ Hstart).
  rewrite (cycles_continue W k (S n) _ _ _ _ _ _ Hloop).
  simpl. apply bind_throw. now apply cycle_transition.
Qed.

Lemma transition_ends_script_B :
  script (Sample.world [Sample.page_B; Sample.page_AC] "") 1 2 default_options 2
    ["http://k/p"] []
  = (Throw (NameError "string"),
     started "http://k/p/pledge/new" " Gadget " Sample.B
     ++ [Sleep 60; Get "http://k/p/pledge/new";
         Print "November 04, 2026 10:00 AM - Reward available!"]).
Proof.
  destruct (transition_ends_script (Sample.world [Sample.page_B; Sample.page_AC] "")
              1 1 0 2 ["http://k/p"] "http://k/p/pledge/new"
              (mkLoop (mkParser false false (Some " Gadget ") (Some [Sample.B])
                         (Some "$50.00") (Some (Some "reward-B")) (Some "Shirt"))
                 [Sample.B] [Sample.B])
              (mkLoop (mkParser false false (Some " Gadget ") (Some [Sample.A; Sample.C])
                         (Some "$75.00") (Some (Some "reward-C")) (Some "Poster"))
                 [Sample.B] [Sample.A; Sample.C])
              (started "http://k/p/pledge/new" " Gadget " Sample.B)
              (started "http://k/p/pledge/new" " Gadget " Sample.B
               ++ [Sleep 60; Get "http://k/p/pledge/new"]))
    as (s & t & _ & _ & _ & _ & E).
  - vm_compute. reflexivity.
  - vm_compute. reflexivity.
  - vm_compute. reflexivity.
  - exact E.
Defined.

(** ** An initial extraction that returns nothing *)

(** C7, as the code has it.  On a page that is fetched and tokenized
    without an exception, with no [li] start tag of the all-gone class and
    no [li] start tag whose [class] has no value, the extraction on a new
    parser returns the empty list.  And whenever the extraction at the
    start of the script returns the empty list, whatever the page and the
    command line, the script prints the message and exits with code 0. *)
Theorem empty_extraction_exits (W : World) (rounds argc : nat) (arg0 : string)
    (amounts : list string) (h : history) :
  (forall (title : option string) (events : list event),
      http_get W h (pledge_url arg0) = Page title events ->
      forallb no_all_gone events = true ->
      forallb li_class_valued events = true ->
      process W init (pledge_url arg0) h
      = (Return (set_rewards [] (set_name title init), []),
         h ++ [Get (pledge_url arg0)]))
  /\ (forall (parser : KickstarterHTMLParser) (h' : history),
        process W init (pledge_url arg0) h = (Return (parser, []), h') ->
        startup W rounds argc (arg0 :: amounts) h
        = (SysExit 0,
           h' ++ [Print "No unavailable limited rewards for this Kickstarter"])).
Proof.
  split.
  - intros title events Hget Hgone Hval.
    apply process_returns with (title := title) (events := events); [exact Hget|].
    unfold parse.
    rewrite feed_no_candidate by (assumption || reflexivity). reflexivity.
  - intros parser h' P. unfold startup.
    rewrite (bind_return _ _ _ _ _ P). reflexivity.
Qed.

Lemma empty_extraction_exits_plain :
  (process
     (Sample.world
        [Page (Some "Gadget")
           [ StartTag "li" [("class", Some "pledge pledge--available")];
             StartTag "input" [("class", Some "pledge__radio")];
             Data "Sticker"; EndTag "li"; StartTag "li" []; EndTag "li" ]] "")
     init (pledge_url "http://k/p?ref=x") []
   = (Return (set_rewards [] (set_name (Some "Gadget") init), []),
      [Get "http://k/p/pledge/new"])
   /\ startup
        (Sample.world
           [Page (Some "Gadget")
              [ StartTag "li" [("class", Some "pledge pledge--available")];
                StartTag "input" [("class", Some "pledge__radio")];
                Data "Sticker"; EndTag "li"; StartTag "li" []; EndTag "li" ]] "")
        1 2 ["http://k/p?ref=x"] []
      = (SysExit 0,
         [Get "http://k/p/pledge/new";
          Print "No unavailable limited rewards for this Kickstarter"]))
  /\ startup (Sample.world [Page (Some "Gadget") page_unclosed] "") 1 4
       ["http://k/p"; "50"; "75"] []
     = (SysExit 0,
        [Get "http://k/p/pledge/new";
         Print "No unavailable limited rewards for this Kickstarter"]).
Proof.
  split.
  - destruct (empty_extraction_exits
                (Sample.world
                   [Page (Some "Gadget")
                      [ StartTag "li" [("class", Some "pledge pledge--available")];
                        StartTag "input" [("class", Some "pledge__radio")];
                        Data "Sticker"; EndTag "li"; StartTag "li" []; EndTag "li" ]] "")
                1 2 "http://k/p?ref=x" [] []) as [Hextract Hexit].
    assert (P := Hextract (Some "Gadget")
                   [ StartTag "li" [("class", Some "pledge pledge--available")];
                     StartTag "input" [("class", Some "pledge__radio")];
                     Data "Sticker"; EndTag "li"; StartTag "li" []; EndTag "li" ]
                   eq_refl eq_refl eq_refl).
    split; [exact P | exact (Hexit _ _ P)].
  - destruct (empty_extraction_exits
                (Sample.world [Page (Some "Gadget") page_unclosed] "")
                1 4 "http://k/p" ["50"; "75"] []) as [_ Hexit].
    refine (Hexit (mkParser true false (Some "Gadget") (Some []) (Some "$50.00")
                     (Some (Some "reward-B")) (Some "Shirt"))
              [Get "http://k/p/pledge/new"] _).
    vm_compute. reflexivity.
Defined.

(** ** The same markup twice *)

Section Site.

Context (T : Tokenizer) (s : site) (W : World).

(** The page the parser object is handed at a request, from the state the
    pages before left [HTMLParser] in. *)
Lemma site_world_page (h : history) (url : string) (res res' : residue T)
    (events : list event) :
  residue_after T s (gets h) = Some res ->
  tokenize T res (s (gets h)).2 = Some (events, res') ->
  http_get (site_world T s W) h url = Page (s (gets h)).1 events.
Proof. intros Hres Htok. simpl. rewrite Hres, Htok. reflexivity. Qed.

(** A text that leaves [HTMLParser] as new, served at every request, finds
    it as new at every request. *)
Lemma residue_after_steady (text : string) (events : list event) (n : nat) :
  (forall i : nat, (s i).2 = text) ->
  tokenize T (fresh T) text = Some (events, fresh T) ->
  residue_after T s n = Some (fresh T).
Proof.
  intros Hs Htok. induction n as [|n IH]; simpl; [reflexivity|].
  rewrite IH, Hs, Htok. reflexivity.
Qed.

End Site.

(** C6, as the code has it.  The one parser object is fed every page; of
    its state only the title and the list of rewards are rebound by
    [process].  When the first call, on a new parser, returns normally,
    leaves the handler outside any candidate block and any title block,
    and leaves [HTMLParser] in the state of a new parser (nothing
    unparsed, not inside a [script] or [style] element), the second call,
    on the same markup, returns the same list. *)
Theorem second_extraction_same_markup (T : Tokenizer) (s : site) (W : World)
    (url : string) (h h2 : history) (title title' : option string)
    (text : string) (events : list event)
    (first : KickstarterHTMLParser) (rs : list reward) :
  s 0%nat = (title, text) ->
  s 1%nat = (title', text) ->
  gets h = 0%nat ->
  gets h2 = 1%nat ->
  tokenize T (fresh T) text = Some (events, fresh T) ->
  process (site_world T s W) init url h = (Return (first, rs), h ++ [Get url]) ->
  in_li_block first = false ->
  in_desc_block first = false ->
  exists later : KickstarterHTMLParser,
    process (site_world T s W) first url h2 = (Return (later, rs), h2 ++ [Get url]).
Proof.
  intros Hs0 Hs1 Hh Hh2 Htok Hfirst Hli Hdesc.
  assert (Hget : http_get (site_world T s W) h url = Page title events).
  { rewrite (site_world_page T s W h url (fresh T) (fresh T) events);
      rewrite Hh, ?Hs0; [reflexivity | reflexivity | exact Htok]. }
  assert (Hget2 : http_get (site_world T s W) h2 url = Page title' events).
  { rewrite (site_world_page T s W h2 url (fresh T) (fresh T) events);
      rewrite Hh2, ?Hs1; [reflexivity | | exact Htok].
    simpl. rewrite Hs0. simpl. rewrite Htok. reflexivity. }
  rewrite (process_page _ init url h _ _ Hget) in Hfirst.
  destruct (parse (charref_sub (site_world T s W)) init title events)
    as [[p rs0] | e] eqn:Hp; [|discriminate].
  injection Hfirst as -> ->.
  destruct (parse_twice _ title title' events first rs Hp Hli Hdesc) as (later & Hlater).
  exists later. now apply process_returns with (title := title') (events := events).
Qed.

Lemma second_extraction_same_markup_shirt :
  exists later : KickstarterHTMLParser,
    process
      (site_world sample_tokenizer (fun _ => (Some " Gadget ", markup_B))
         (Sample.world [] ""))
      (mkParser false false (Some " Gadget ") (Some [Sample.B]) (Some "$50.00")
         (Some (Some "reward-B")) (Some "Shirt"))
      "u" [Get "u"; Sleep 60]
    = (Return (later, [Sample.B]), [Get "u"; Sleep 60; Get "u"]).
Proof.
  refine (second_extraction_same_markup sample_tokenizer
            (fun _ => (Some " Gadget ", markup_B)) (Sample.world [] "")
            "u" [] [Get "u"; Sleep 60] (Some " Gadget ") (Some " Gadget ") markup_B
            (Sample.block "$50.00" "reward-B" "Shirt")
            (mkParser false false (Some " Gadget ") (Some [Sample.B]) (Some "$50.00")
               (Some (Some "reward-B")) (Some "Shirt"))
            [Sample.B] _ _ _ _ _ _ _ _); try reflexivity.
Defined.

(** The tokenizer state matters: after a page that ends inside a [script]
    element the first call leaves the handler outside any block, and the
    second call, on the same text, makes no callback and returns nothing.
    The script then takes the watched reward for available. *)
Example unclosed_script_differs :
  exists first later : KickstarterHTMLParser,
    process
      (site_world sample_tokenizer (fun _ => (Some " Gadget ", markup_B_script))
         (Sample.world [] ""))
      init "u" []
    = (Return (first, [Sample.B]), [Get "u"])
    /\ in_li_block first = false /\ in_desc_block first = false
    /\ process
         (site_world sample_tokenizer (fun _ => (Some " Gadget ", markup_B_script))
            (Sample.world [] ""))
         first "u" [Get "u"]
       = (Return (later, []), [Get "u"; Get "u"])
    /\ script
         (site_world sample_tokenizer (fun _ => (Some " Gadget ", markup_B_script))
            (Sample.world [] ""))
         1 2 default_options 2 ["http://k/p"] []
       = (Throw (NameError "string"),
          started "http://k/p/pledge/new" " Gadget " Sample.B
          ++ [Sleep 60; Get "http://k/p/pledge/new";
              Print "November 04, 2026 10:00 AM - Reward available!"]).
Proof. do 2 eexists. repeat split; vm_compute; reflexivity. Qed.

(** ** The loop while the site does not change *)

Section ParserName.

Variable cs : string -> string.

Lemma handle_name (self self' : KickstarterHTMLParser) (e : event) :
  handle cs self e = Ok self' -> name self' = name self.
Proof.
  intros H. destruct e as [tag attributes | tag | data]; simpl in H;
    unfold handle_starttag, handle_endtag, handle_data, mbind, result_bind,
      Py.str_in, Py.getitem, getattr in H;
    repeat (case_match; try discriminate); simplify_eq; reflexivity.
Qed.

Lemma feed_name (events : list event) (self self' : KickstarterHTMLParser) :
  feed cs self events = Ok self' -> name self' = name self.
Proof.
  revert self. induction events as [|e events IH]; intros self; simpl.
  - now intros [= <-].
  - destruct (handle cs self e) as [s1|] eqn:E; simpl; [|discriminate].
    intros H. rewrite (IH _ H). now apply handle_name with (e := e).
Qed.

Lemma parse_name (self self' : KickstarterHTMLParser) (title : option string)
    (events : list event) (rs : list reward) :
  parse cs self title events = Ok (self', rs) -> name self' = title.
Proof.
  unfold parse.
  destruct (feed cs (set_rewards [] (set_name title self)) events) as [s1|] eqn:E;
    simpl; [|discriminate].
  destruct (rewards s1); simpl; [|discriminate].
  intros [= <- _]. now rewrite (feed_name _ _ _ E).
Qed.

End ParserName.

(** The start of the script on a page with one reward. *)
Lemma startup_enters_loop (W : World) (rounds argc : nat)
    (arg0 : string) (amounts : list string)
    (title : option string) (events : list event)
    (parser : KickstarterHTMLParser) (r : reward) (t : string) :
  (argc <= 2)%nat ->
  http_get W [] (pledge_url arg0) = Page title events ->
  parse (charref_sub W) init title events = Ok (parser, [r]) ->
  name parser = Some t ->
  (forall h : history, http_post W h = None) ->
  startup W rounds argc (arg0 :: amounts) []
  = (Return (pledge_url arg0, mkLoop parser [r] [r]),
     started (pledge_url arg0) t r).
Proof.
  intros Hargc Hget Hparse Hname Hpost.
  unfold startup.
  assert (Hc : (2 <? Z.of_nat argc) = false) by lia.
  rewrite Hc.
  set (url := pledge_url arg0) in *.
  assert (P : process W init url [] = (Return (parser, [r]), [Get url])).
  { rewrite (process_page W init url [] _ _ Hget), Hparse. reflexivity. }
  rewrite (bind_return _ _ _ _ _ P).
  unfold pledge_menu, mbind, M_bind, print, emit, push_message, lift, mret, M_ret.
  simpl. rewrite Hname. simpl. rewrite Hpost. reflexivity.
Qed.

(** X20.  The command line names the project only (no amount, no option:
    the delay is one minute and nothing is printed before a sleep).  The
    site serves at every request the same title and the same markup;
    [HTMLParser], from the state of a new parser, makes of that markup the
    callbacks of one well-formed sold-out tier followed by material
    without a candidate block, and is left in the state of a new parser;
    the push service accepts what it is sent.  Then the script enters the
    loop and goes on for any number [n] of rounds: after its start, the
    history grows by [n] times a sleep of 60 seconds and one request, and
    the watch-set and the unavailable-set stay the one reward of the
    page. *)
Theorem steady_site_polls_forever (T : Tokenizer) (s : site) (W : World)
    (rounds n argc : nat) (arg0 : string) (amounts : list string)
    (title text : string) (t : tier) (trailer : list event) :
  (argc <= 2)%nat ->
  (forall i : nat, s i = (Some title, text)) ->
  tokenize T (fresh T) text = Some (tier_events t ++ trailer, fresh T) ->
  well_formed t = true ->
  forallb no_all_gone trailer = true ->
  forallb li_class_valued trailer = true ->
  (forall h : history, http_post W h = None) ->
  exists parser : KickstarterHTMLParser,
    script (site_world T s W) rounds n default_options argc (arg0 :: amounts) []
    = (Return (mkLoop parser [record_of (charref_sub W) t]
                 [record_of (charref_sub W) t]),
       started (pledge_url arg0) title (record_of (charref_sub W) t)
       ++ rounds_of n default_options (pledge_url arg0)).
Proof.
  intros Hargc Hs Htok Hwf Hg Hv Hpost.
  set (W' := site_world T s W).
  set (url := pledge_url arg0).
  set (r := record_of (charref_sub W) t).
  assert (Hsite : forall h : history,
             http_get W' h url = Page (Some title) (concat (map tier_events [t]) ++ trailer)).
  { intros h. simpl concat. rewrite app_nil_r. unfold W', url.
    rewrite (site_world_page T s W h (pledge_url arg0) (fresh T) (fresh T)
               (tier_events t ++ trailer)).
    - now rewrite Hs.
    - apply residue_after_steady with (text := text) (events := tier_events t ++ trailer);
        [intros i; now rewrite Hs | exact Htok].
    - now rewrite Hs. }
  assert (Hwfs : forallb well_formed [t] = true) by (simpl; now rewrite Hwf).
  destruct (parse_tiers W' init (Some title) [t] trailer eq_refl eq_refl Hwfs Hg Hv)
    as (p0 & Hp0 & Hli0 & Hd0).
  assert (Hstart : startup W' rounds argc (arg0 :: amounts) []
                   = (Return (url, mkLoop p0 [r] [r]), started url title r)).
  { apply startup_enters_loop with (title := Some title)
      (events := concat (map tier_events [t]) ++ trailer).
    - exact Hargc.
    - apply Hsite.
    - exact Hp0.
    - exact (parse_name _ _ _ _ _ _ Hp0).
    - exact Hpost. }
  destruct (steady_rounds W' n default_options url (Some title) [t] trailer p0 [r]
              (started url title r) Hsite Hwfs Hg Hv) as (p & Hloop & _).
  - simpl. lia.
  - simpl. unfold became_available. simpl.
    rewrite bool_decide_eq_true_2 by (apply list_elem_of_singleton; reflexivity).
    reflexivity.
  - exact Hli0.
  - exact Hd0.
  - exists p. unfold script. rewrite (bind_return _ _ _ _ _ Hstart). exact Hloop.
Qed.

Lemma steady_site_polls_forever_3 :
  exists parser : KickstarterHTMLParser,
    script
      (site_world sample_tokenizer (fun _ => (Some " Gadget ", markup_B))
         (Sample.world [] ""))
      1 3 default_options 2 ["http://k/p"] []
    = (Return (mkLoop parser [Sample.B] [Sample.B]),
       started "http://k/p/pledge/new" " Gadget " Sample.B
       ++ [Sleep 60; Get "http://k/p/pledge/new";
           Sleep 60; Get "http://k/p/pledge/new";
           Sleep 60; Get "http://k/p/pledge/new"]).
Proof.
  refine (steady_site_polls_forever sample_tokenizer
            (fun _ => (Some " Gadget ", markup_B)) (Sample.world [] "")
            1 3 2 "http://k/p" [] " Gadget " markup_B
            (mkTier [] [("class", Some "pledge pledge--all-gone")]
               [("class", Some "pledge__radio"); ("title", Some "$50.00");
                ("id", Some "reward-B")]
               [("class", Some "pledge__title")]
               [] [EndTag "input"] [Data "Shirt"] [])
            [] _ _ _ _ _ _ _); reflexivity.
Defined.
